(** * SinhArcsinh: the sinh-arcsinh transformation of a distribution

    A shallow embedding of
    [tensorflow_probability/python/distributions/sinh_arcsinh.py].

    The class is parameter plumbing over the tensor framework and over the
    bijector / transformed-distribution machinery of the library.  The
    embedding keeps the structure of the Python file: the constructor is a
    function in an error monad ([TypeError] and [InvalidArgumentError] are
    the exceptions the constructor can meet), the object is a record whose fields
    are the attributes the constructor assigns, and every method is a function
    of that record.

    Conventions of the model:
    - tensors are eager tensors: the static shape is fully defined, so
      [t.shape] is a list of naturals, and an assertion on the value of a
      tensor is evaluated where it is made;
    - tensor values are real numbers (the rounding of the floating-point
      dtypes is not modelled); a tensor is read through an index function;
    - collaborators that live outside this file are modelled by small
      definitions, each one marked as such. *)

From Stdlib Require Import List String Bool Arith PeanoNat Lia.
From Stdlib Require Import Reals Lra.
From Stdlib Require Import Permutation.
Import ListNotations.

#[local] Set Warnings "-register-all".

(* ================================================================== *)
(** ** Exceptions and the error monad *)

Inductive Exn : Type :=
| TypeError
| ValueError
| AttributeError
| InvalidArgumentError.

Definition Result (A : Type) : Type := (Exn + A)%type.

Definition ret {A : Type} (a : A) : Result A := inr a.
Definition raise {A : Type} (e : Exn) : Result A := inl e.

Definition bind {A B : Type} (c : Result A) (k : A -> Result B) : Result B :=
  match c with
  | inl e => inl e
  | inr a => k a
  end.

Notation "x <- c ;; k" := (bind c (fun x => k))
  (at level 61, c at next level, right associativity).

(* ================================================================== *)
(** ** The tensor framework: dtypes, shapes, tensors *)

Module tf.

(** The dtypes a parameter can carry.  The first three are the
    floating-point ones. *)
Inductive DType : Type :=
| float16 | float32 | float64
| int32 | int64.

Definition is_floating (d : DType) : bool :=
  match d with
  | float16 | float32 | float64 => true
  | int32 | int64 => false
  end.

Definition dtype_eqb (a b : DType) : bool :=
  match a, b with
  | float16, float16
  | float32, float32 | float64, float64
  | int32, int32 | int64, int64 => true
  | _, _ => false
  end.

(** A fully defined shape, outermost dimension first. *)
Definition TensorShape : Type := list nat.

(** A tensor-like object: a [tf.Tensor], or (when [is_ref]) a reference such
    as a [tf.Variable] or a deferred tensor, which is read again at each
    use. *)
Record Tensor : Type := mkTensor {
  dtype : DType;
  shape : TensorShape;
  value : list nat -> R;
  is_ref : bool
}.

(** [tf.zeros(shape, dtype)] and [tf.ones(shape, dtype)]. *)
Definition zeros (s : TensorShape) (d : DType) : Tensor :=
  mkTensor d s (fun _ => 0%R) false.

Definition ones (s : TensorShape) (d : DType) : Tensor :=
  mkTensor d s (fun _ => 1%R) false.

(** [tf.ones(n, tf.int32)] with a scalar [n]: the vector of [n] ones, used
    by the constructor as a shape. *)
Definition ones_vector (n : nat) : TensorShape := repeat 1 n.

(** A Python float turned into a scalar constant. *)
Definition constant (v : R) (d : DType) : Tensor :=
  mkTensor d [] (fun _ => v) false.

(** [tf.reduce_max] of a list of ranks. *)
Definition reduce_max (l : list nat) : nat := fold_right Nat.max 0 l.

(** One dimension of a broadcast: equal sizes, or one of them is 1. *)
Definition broadcast_dim (x y : nat) : option nat :=
  if x =? 1 then Some y
  else if y =? 1 then Some x
  else if x =? y then Some x
  else None.

(** Pairs of dimensions, innermost first, the shorter shape filled
    with 1 ([zip_longest] with [fillvalue = 1]). *)
Fixpoint zip_longest (x y : list nat) : list (nat * nat) :=
  match x with
  | [] => map (fun b => (1, b)) y
  | a :: x' =>
      match y with
      | [] => (a, 1) :: zip_longest x' []
      | b :: y' => (a, b) :: zip_longest x' y'
      end
  end.

Fixpoint broadcast_dims (ps : list (nat * nat)) : option (list nat) :=
  match ps with
  | [] => Some []
  | (a, b) :: ps' =>
      match broadcast_dim a b, broadcast_dims ps' with
      | Some d, Some ds => Some (d :: ds)
      | _, _ => None
      end
  end.

(** Modelled from the spec: [tf.broadcast_static_shape] belongs to the
    tensor framework ("tensor broadcasting semantics ... assumed as given
    library services").  Shapes are aligned at their innermost dimension;
    incompatible dimensions raise [ValueError]. *)
Definition broadcast_static_shape (x y : TensorShape) : Result TensorShape :=
  match broadcast_dims (zip_longest (rev x) (rev y)) with
  | Some ds => ret (rev ds)
  | None => raise ValueError
  end.

(** The index at which a tensor of shape [s] is read when it is broadcast
    to a batch index [i] (both innermost first): a dimension of size 1 is
    read at 0, missing outer dimensions of [s] are dropped. *)
Fixpoint broadcast_index (s i : list nat) : list nat :=
  match s with
  | [] => []
  | d :: s' =>
      match i with
      | [] => 0 :: broadcast_index s' []
      | j :: i' => (if d =? 1 then 0 else j) :: broadcast_index s' i'
      end
  end.

(** The value of [t] at batch index [i], with broadcasting. *)
Definition read (t : Tensor) (i : list nat) : R :=
  value t (rev (broadcast_index (rev (shape t)) (rev i))).

(** [with tf.name_scope(name) as name]: at top level the scope name is the
    given name followed by a slash, and the empty name stays empty. *)
Definition name_scope (name : string) : string :=
  if String.eqb name "" then ""%string else (name ++ "/")%string.

(** Every index of a tensor of shape [s], outermost dimension first. *)
Fixpoint indices (s : TensorShape) : list (list nat) :=
  match s with
  | [] => [[]]
  | d :: s' => flat_map (fun j => map (cons j) (indices s')) (seq 0 d)
  end.

(** The comparison [0 < x] on the values of a tensor. *)
Definition positive (x : R) : bool :=
  if Rlt_dec 0 x then true else false.

(** [assert_positive(t)] on an eager tensor: every element is positive. *)
Definition all_positive (t : Tensor) : bool :=
  forallb (fun i => positive (value t i)) (indices (shape t)).

End tf.

(** A parameter as the caller passes it: a Python float, which carries no
    dtype, or a tensor-like object, which does. *)
Inductive PyValue : Type :=
| PyFloat (v : R)
| PyTensor (t : tf.Tensor).

(* ================================================================== *)
(** ** Collaborators of the class *)

Module dtype_util.

(** [hasattr(a, 'dtype') and a.dtype]: [None] and Python floats carry no
    dtype. *)
Definition dtype_of (a : option PyValue) : option tf.DType :=
  match a with
  | Some (PyTensor t) => Some (tf.dtype t)
  | Some (PyFloat _) => None
  | None => None
  end.

Fixpoint common_dtype_loop (args_list : list (option PyValue))
         (dtype : option tf.DType) : Result (option tf.DType) :=
  match args_list with
  | [] => ret dtype
  | a :: rest =>
      match dtype_of a with
      | None => common_dtype_loop rest dtype
      | Some dt =>
          match dtype with
          | None => common_dtype_loop rest (Some dt)
          | Some d =>
              if tf.dtype_eqb d dt then common_dtype_loop rest dtype
              else raise TypeError
          end
      end
  end.

(** Modelled from the spec: [dtype_util.common_dtype] is not part of this
    file.  The parameters are "of a common floating-point type": the dtype
    that the arguments carry, which must be the same for all that carry
    one, and the hint when none does. *)
Definition common_dtype (args_list : list (option PyValue))
           (dtype_hint : tf.DType) : Result tf.DType :=
  d <- common_dtype_loop args_list None ;;
  ret (match d with
       | None => dtype_hint
       | Some d' => d'
       end).

(** Modelled from the spec: [dtype_util.eps] is not part of this file; it
    is "the dtype's machine epsilon", which only a floating-point dtype
    has. *)
Definition eps (d : tf.DType) : Result R :=
  match d with
  | tf.float16 => ret (/ 2 ^ 10)%R
  | tf.float32 => ret (/ 2 ^ 23)%R
  | tf.float64 => ret (/ 2 ^ 52)%R
  | tf.int32 | tf.int64 => raise ValueError
  end.

End dtype_util.

Module tensor_util.

(** Modelled from the spec: [tensor_util.convert_nonref_to_tensor] is not
    part of this file.  Parameters are "converted to deferred tensor
    references (may be reevaluated lazily rather than snapshotted)": a
    reference is returned as it is, after its dtype is checked; any other
    value becomes a tensor of the requested dtype. *)
Definition convert_nonref_to_tensor (v : PyValue) (dtype : tf.DType)
  : Result tf.Tensor :=
  match v with
  | PyTensor t =>
      if tf.is_ref t then
        if tf.dtype_eqb dtype (tf.dtype t) then ret t else raise TypeError
      else
        if tf.dtype_eqb dtype (tf.dtype t) then ret t else raise ValueError
  | PyFloat x =>
      if tf.is_floating dtype then ret (tf.constant x dtype)
      else raise TypeError
  end.

End tensor_util.

Module distribution_util.

Definition prefer_static_rank (x : tf.Tensor) : nat :=
  List.length (tf.shape x).

Fixpoint broadcast_rest (s_shape : tf.TensorShape) (ts : list tf.Tensor)
  : Result tf.TensorShape :=
  match ts with
  | [] => ret s_shape
  | t :: ts' =>
      s <- tf.broadcast_static_shape s_shape (tf.shape t) ;;
      broadcast_rest s ts'
  end.

(** Modelled from the spec: [distribution_util.get_broadcast_shape] is not
    part of this file.  With fully defined static shapes it is the static
    broadcast of the shapes of its arguments, taken from left to right. *)
Definition get_broadcast_shape (t0 : tf.Tensor) (ts : list tf.Tensor)
  : Result tf.TensorShape :=
  broadcast_rest (tf.shape t0) ts.

End distribution_util.

Module bijectors.

(** The bijectors this file builds.  Each constructor of the library takes
    [validate_args], which defaults to [False]. *)
Inductive Bijector : Type :=
| Identity (validate_args : bool)
| Shift (shift : tf.Tensor) (validate_args : bool)
| Scale (scale : tf.Tensor) (validate_args : bool)
| SinhArcsinh (skewness tailweight : tf.Tensor) (validate_args : bool)
| Softplus (low : R) (validate_args : bool)
| Chain (parts : list Bijector) (validate_args : bool).

(** [F] of the class docstring:
    [F(Z) := Sinh((Arcsinh(Z) + skewness) * tailweight) * (2 / F_0(2))],
    [F_0(Z) := Sinh(Arcsinh(Z) * tailweight)]. *)
Definition F_0 (tailweight z : R) : R := sinh (arcsinh z * tailweight).

Definition F (skewness tailweight z : R) : R :=
  (sinh ((arcsinh z + skewness) * tailweight) * (2 / F_0 tailweight 2))%R.

(** Modelled from the spec: the bijector classes are not part of this
    file.  The forward map of each one at batch index [i]; a chain is
    "first a sinh-arcsinh reshaping ..., then an affine shift-and-scale,
    chained together": the last bijector of the list is applied first. *)
Fixpoint forward (b : Bijector) (i : list nat) (z : R) : R :=
  match b with
  | Identity _ => z
  | Shift shift _ => (tf.read shift i + z)%R
  | Scale scale _ => (tf.read scale i * z)%R
  | SinhArcsinh skewness tailweight _ =>
      F (tf.read skewness i) (tf.read tailweight i) z
  | Softplus low _ => (ln (1 + exp z) + low)%R
  | Chain parts _ =>
      (fix go (l : list Bijector) : R :=
         match l with
         | [] => z
         | b' :: l' => forward b' i (go l')
         end) parts
  end.

(** Modelled from the spec: [Bijector.__call__] is not part of this file.
    [b1(b2)], a bijector called on a bijector, is the two "chained
    together", [b2] applied first. *)
Definition call (b1 b2 : Bijector) : Bijector := Chain [b1; b2] false.

(** Modelled from the spec: the constructor of the sinh-arcsinh bijector
    is not part of this file.  Its parameters are "of a common
    floating-point type" (the constant 2 of [F_0(2)] has to be of that
    type), and "positivity of ... tailweight is enforced when validation is
    enabled": with [validate_args] a tailweight with a non-positive element
    is refused where the bijector is built; a reference is read, and so
    checked, only when it is used. *)
Definition new_SinhArcsinh (skewness tailweight : tf.Tensor)
           (validate_args : bool) : Result Bijector :=
  if negb (tf.is_floating (tf.dtype tailweight)) then raise TypeError
  else if validate_args && negb (tf.is_ref tailweight)
          && negb (tf.all_positive tailweight)
       then raise InvalidArgumentError
       else ret (SinhArcsinh skewness tailweight validate_args).

End bijectors.

Module parameter_properties.

(** [ParameterProperties(...)] as this file calls it: the only argument it
    ever passes is [default_constraining_bijector_fn]; [None] stands for
    the argument left out. *)
Record ParameterProperties : Type := mkParameterProperties {
  default_constraining_bijector_fn :
    option (unit -> Result bijectors.Bijector)
}.

End parameter_properties.

Module distributions.

(** A base distribution: the standard-library normal, or any other
    distribution object the caller supplies, known by its name and batch
    shape. *)
Inductive Distribution : Type :=
| Normal (loc scale : tf.Tensor) (allow_nan_stats validate_args : bool)
| Other (name : string) (batch_shape : tf.TensorShape).

(** Modelled from the spec: the class [Normal] is not part of this file.
    The batch shape of a base distribution; for the normal it is the
    broadcast of the shapes of its two parameters, as "batch shape is the
    broadcast of the ... parameter shapes" says of this class. *)
Definition batch_shape (d : Distribution) : Result tf.TensorShape :=
  match d with
  | Normal loc scale _ _ =>
      tf.broadcast_static_shape (tf.shape loc) (tf.shape scale)
  | Other _ s => ret s
  end.

(** Modelled from the spec: [TransformedDistribution] is not part of this
    file ("the underlying transformed-distribution machinery ... that this
    file merely configures").  Its constructor records what it is given. *)
Record TransformedDistribution : Type := mkTransformedDistribution {
  distribution : Distribution;
  bijector : bijectors.Bijector;
  validate_args : bool;
  name : string
}.

(** Modelled from the spec: the batch shape that a plain transformed
    distribution reports is the one of its base distribution; the bijector
    does not change it, which is why this class overrides its shape methods
    ("overridden here because the default base distribution's own shape
    does not yet reflect the parameters"). *)
Definition transformed_batch_shape (d : TransformedDistribution)
  : Result tf.TensorShape :=
  batch_shape (distribution d).

End distributions.

(* ================================================================== *)
(** ** The class [SinhArcsinh] *)

(** The arguments of [__init__]; [None] is the omitted argument.  The
    record is also what [dict(locals())] captures on entry. *)
Record Args : Type := mkArgs {
  arg_loc : PyValue;
  arg_scale : PyValue;
  arg_skewness : option PyValue;
  arg_tailweight : option PyValue;
  arg_distribution : option distributions.Distribution;
  arg_validate_args : bool;
  arg_allow_nan_stats : bool;
  arg_name : string
}.

(** The call [SinhArcsinh(loc, scale)] and its keyword defaults. *)
Definition default_args (loc scale : PyValue) : Args :=
  mkArgs loc scale None None None false true "SinhArcsinh".

(** The object: the attributes assigned by [__init__], over those of the
    superclass. *)
Record SinhArcsinh : Type := mkSinhArcsinh {
  _loc : tf.Tensor;
  _scale : tf.Tensor;
  _tailweight : tf.Tensor;
  _skewness : tf.Tensor;
  super : distributions.TransformedDistribution;
  _parameters : Args
}.

(** The default base distribution, built when [distribution is None]. *)
Definition default_distribution (skewness tailweight loc scale : tf.Tensor)
           (dtype : tf.DType) (allow_nan_stats validate_args : bool)
  : distributions.Distribution :=
  let batch_rank :=
    tf.reduce_max
      (map distribution_util.prefer_static_rank
           [skewness; tailweight; loc; scale]) in
  distributions.Normal
    (tf.zeros (tf.ones_vector batch_rank) dtype)
    (tf.ones [] dtype)
    allow_nan_stats
    validate_args.

(** The affine bijector [Z --> loc + scale * Z]: [Shift] and [Scale] are
    built without [validate_args]. *)
Definition make_affine (loc scale : tf.Tensor) : bijectors.Bijector :=
  bijectors.call (bijectors.Shift loc false) (bijectors.Scale scale false).

(** The full chain, once the sinh-arcsinh bijector is built. *)
Definition make_bijector (loc scale skewness tailweight : tf.Tensor)
           (validate_args : bool) : bijectors.Bijector :=
  let f := bijectors.SinhArcsinh skewness tailweight validate_args in
  let affine := make_affine loc scale in
  bijectors.Chain [affine; f] false.

(** [SinhArcsinh.__init__]. *)
Definition __init__ (a : Args) : Result SinhArcsinh :=
  let parameters := a in
  let name := tf.name_scope (arg_name a) in
  dtype <- dtype_util.common_dtype
             [Some (arg_loc a); Some (arg_scale a);
              arg_skewness a; arg_tailweight a]
             tf.float32 ;;
  self_loc <- tensor_util.convert_nonref_to_tensor (arg_loc a) dtype ;;
  self_scale <- tensor_util.convert_nonref_to_tensor (arg_scale a) dtype ;;
  let tailweight :=
    match arg_tailweight a with
    | None => PyFloat 1
    | Some t => t
    end in
  let has_default_skewness :=
    match arg_skewness a with
    | None => true
    | Some _ => false
    end in
  let skewness :=
    if has_default_skewness then PyFloat 0
    else match arg_skewness a with
         | Some s => s
         | None => PyFloat 0
         end in
  self_tailweight <- tensor_util.convert_nonref_to_tensor tailweight dtype ;;
  self_skewness <- tensor_util.convert_nonref_to_tensor skewness dtype ;;
  let distribution :=
    match arg_distribution a with
    | None =>
        default_distribution self_skewness self_tailweight self_loc self_scale
                             dtype (arg_allow_nan_stats a)
                             (arg_validate_args a)
    | Some d => d
    end in
  f <- bijectors.new_SinhArcsinh self_skewness self_tailweight
                                 (arg_validate_args a) ;;
  let affine := make_affine self_loc self_scale in
  let bijector := bijectors.Chain [affine; f] false in
  ret (mkSinhArcsinh
         self_loc self_scale self_tailweight self_skewness
         (distributions.mkTransformedDistribution
            distribution bijector (arg_validate_args a) name)
         parameters).

(** [SinhArcsinh._parameter_properties]: a dict, in the order of the
    source. *)
Definition _parameter_properties (dtype : tf.DType)
  : list (string * parameter_properties.ParameterProperties) :=
  let softplus_fn := fun _ : unit =>
    low <- dtype_util.eps dtype ;;
    ret (bijectors.Softplus low false) in
  [ ("loc"%string, parameter_properties.mkParameterProperties None);
    ("scale"%string, parameter_properties.mkParameterProperties (Some softplus_fn));
    ("skewness"%string, parameter_properties.mkParameterProperties None);
    ("tailweight"%string, parameter_properties.mkParameterProperties (Some softplus_fn)) ].

(** Lookup in a dict with string keys. *)
Fixpoint dict_get {V : Type} (d : list (string * V)) (k : string) : option V :=
  match d with
  | [] => None
  | (k', v) :: d' => if String.eqb k k' then Some v else dict_get d' k
  end.

(** The read-only properties. *)
Definition loc (self : SinhArcsinh) : tf.Tensor := _loc self.
Definition scale (self : SinhArcsinh) : tf.Tensor := _scale self.
Definition tailweight (self : SinhArcsinh) : tf.Tensor := _tailweight self.
Definition skewness (self : SinhArcsinh) : tf.Tensor := _skewness self.

(** Properties inherited from the superclass. *)
Definition validate_args (self : SinhArcsinh) : bool :=
  distributions.validate_args (super self).
Definition distribution (self : SinhArcsinh) : distributions.Distribution :=
  distributions.distribution (super self).
Definition bijector (self : SinhArcsinh) : bijectors.Bijector :=
  distributions.bijector (super self).

(** [SinhArcsinh._batch_shape]. *)
Definition _batch_shape (self : SinhArcsinh) : Result tf.TensorShape :=
  let params := [skewness self; tailweight self; loc self; scale self] in
  match params with
  | [] => raise ValueError
  | p0 :: rest =>
      fold_left
        (fun (s_shape : Result tf.TensorShape) (t : tf.Tensor) =>
           s <- s_shape ;; tf.broadcast_static_shape s (tf.shape t))
        rest (ret (tf.shape p0))
  end.

(** [SinhArcsinh._batch_shape_tensor]. *)
Definition _batch_shape_tensor (self : SinhArcsinh) : Result tf.TensorShape :=
  distribution_util.get_broadcast_shape
    (skewness self) [tailweight self; loc self; scale self].

(** [SinhArcsinh._default_event_space_bijector]. *)
Definition _default_event_space_bijector (self : SinhArcsinh)
  : bijectors.Bijector :=
  bijectors.Identity (validate_args self).

(* ================================================================== *)
(** ** The public surface of an object as a transition system *)

(** The four properties; each is declared with [@property] and no setter. *)
Inductive Property : Type :=
| property_loc
| property_scale
| property_tailweight
| property_skewness.

(** The operations the class offers on a constructed object: reading a
    property, calling a method, and the attempt to assign to a property. *)
Inductive Method : Type :=
| call_loc
| call_scale
| call_tailweight
| call_skewness
| call_batch_shape
| call_batch_shape_tensor
| call_default_event_space_bijector
| assign (p : Property) (v : tf.Tensor).

Inductive Returned : Type :=
| ReturnedTensor (t : tf.Tensor)
| ReturnedShape (s : Result tf.TensorShape)
| ReturnedBijector (b : bijectors.Bijector)
| Raised (e : Exn).

(** One call: the object after the call and the value returned.  No
    method of the class assigns to an attribute. *)
Definition invoke (m : Method) (self : SinhArcsinh) : SinhArcsinh * Returned :=
  match m with
  | call_loc => (self, ReturnedTensor (loc self))
  | call_scale => (self, ReturnedTensor (scale self))
  | call_tailweight => (self, ReturnedTensor (tailweight self))
  | call_skewness => (self, ReturnedTensor (skewness self))
  | call_batch_shape => (self, ReturnedShape (_batch_shape self))
  | call_batch_shape_tensor => (self, ReturnedShape (_batch_shape_tensor self))
  | call_default_event_space_bijector =>
      (self, ReturnedBijector (_default_event_space_bijector self))
  | assign _ _ => (self, Raised AttributeError)
  end.

(** The object after a sequence of calls. *)
Fixpoint after (ms : list Method) (self : SinhArcsinh) : SinhArcsinh :=
  match ms with
  | [] => self
  | m :: ms' => after ms' (fst (invoke m self))
  end.

(* ================================================================== *)
(** ** Notions the specification speaks of *)

(** All members of a list of options, or [None] when one is missing. *)
Fixpoint sequence {A : Type} (l : list (option A)) : option (list A) :=
  match l with
  | [] => Some []
  | None :: _ => None
  | Some a :: l' =>
      match sequence l' with
      | Some r => Some (a :: r)
      | None => None
      end
  end.

(** The size of dimension [k] of a shape, counted from the innermost
    dimension; a dimension the shape does not have counts as 1. *)
Definition dim_from_end (s : tf.TensorShape) (k : nat) : nat :=
  nth k (rev s) 1.

(** The common size of one dimension across several shapes: 1 when all are
    1, otherwise the size shared by those that are not 1; undefined when two
    of them differ. *)
Definition common_dim (ds : list nat) : option nat :=
  match filter (fun d => negb (d =? 1)) ds with
  | [] => Some 1
  | d :: rest => if forallb (Nat.eqb d) rest then Some d else None
  end.

(** The broadcast of a family of shapes, stated dimension by dimension: the
    rank is the largest rank, and each dimension is the common size of that
    dimension across the family.  Undefined when the shapes do not
    broadcast. *)
Definition broadcast_shapes (shapes : list tf.TensorShape)
  : option tf.TensorShape :=
  let rank := fold_right Nat.max 0 (map (@List.length nat) shapes) in
  match sequence
          (map (fun k => common_dim (map (fun s => dim_from_end s k) shapes))
               (seq 0 rank)) with
  | Some ds => Some (rev ds)
  | None => None
  end.

(** The same broadcast on shapes written innermost dimension first. *)
Definition broadcast_reversed (shapes : list (list nat)) : option (list nat) :=
  sequence
    (map (fun k => common_dim (map (fun x => nth k x 1) shapes))
         (seq 0 (fold_right Nat.max 0 (map (@List.length nat) shapes)))).

(** What a shape computation returns when the broadcast is [b]. *)
Definition shape_result (b : option tf.TensorShape) : Result tf.TensorShape :=
  match b with
  | Some s => ret s
  | None => raise ValueError
  end.

(** The shape of a parameter as the caller passes it: a Python float is a
    scalar. *)
Definition py_shape (v : PyValue) : tf.TensorShape :=
  match v with
  | PyFloat _ => []
  | PyTensor t => tf.shape t
  end.

(** One step of the loop of [_batch_shape]. *)
Definition broadcast_with (s_shape : Result tf.TensorShape) (t : tf.Tensor)
  : Result tf.TensorShape :=
  s <- s_shape ;; tf.broadcast_static_shape s (tf.shape t).

(** The shapes of the four parameters of an object. *)
Definition parameter_shapes (self : SinhArcsinh) : list tf.TensorShape :=
  [tf.shape (skewness self); tf.shape (tailweight self);
   tf.shape (loc self); tf.shape (scale self)].

(** A standard normal: location 0 and scale 1 at every batch index. *)
Definition standard_normal (d : distributions.Distribution) : Prop :=
  match d with
  | distributions.Normal l s _ _ =>
      (forall i, tf.read l i = 0%R) /\ (forall i, tf.read s i = 1%R)
  | distributions.Other _ _ => False
  end.

(** The plain affine transform of a base distribution: scale by [scale],
    then shift by [loc]. *)
Definition affine_transform (base : distributions.Distribution)
           (loc scale : tf.Tensor) : distributions.TransformedDistribution :=
  distributions.mkTransformedDistribution
    base
    (bijectors.Chain [bijectors.Shift loc false; bijectors.Scale scale false]
                     false)
    false
    "affine".

(** A distribution as its user sees it: the base distribution, the map it
    is pushed through, and the batch shape it reports. *)
Record Pushforward : Type := mkPushforward {
  base : distributions.Distribution;
  transform : list nat -> R -> R;
  reported_batch_shape : Result tf.TensorShape
}.

Definition of_sinh_arcsinh (self : SinhArcsinh) : Pushforward :=
  mkPushforward (distribution self)
                (bijectors.forward (bijector self))
                (_batch_shape self).

Definition of_transformed (d : distributions.TransformedDistribution)
  : Pushforward :=
  mkPushforward (distributions.distribution d)
                (bijectors.forward (distributions.bijector d))
                (distributions.transformed_batch_shape d).

(** Two distributions are the same when they push the same base
    distribution through the same map and report the same batch shape. *)
Definition same_distribution (p q : Pushforward) : Prop :=
  base p = base q /\
  (forall (i : list nat) (z : R), transform p i z = transform q i z) /\
  reported_batch_shape p = reported_batch_shape q.

(** The value of a parameter, as the caller passes it, at batch index
    [i]. *)
Definition py_read (v : PyValue) (i : list nat) : R :=
  match v with
  | PyFloat x => x
  | PyTensor t => tf.read t i
  end.

(** The default-filled parameters, as the constructor computes them. *)
Definition tailweight_or_default (a : Args) : PyValue :=
  match arg_tailweight a with
  | None => PyFloat 1
  | Some t => t
  end.

Definition skewness_or_default (a : Args) : PyValue :=
  match arg_skewness a with
  | None => PyFloat 0
  | Some s => s
  end.

(** The arguments with the omitted [skewness] and [tailweight] written
    out. *)
Definition with_explicit_defaults (a : Args) : Args :=
  mkArgs (arg_loc a) (arg_scale a)
         (Some (match arg_skewness a with
                | None => PyFloat 0
                | Some s => s
                end))
         (Some (match arg_tailweight a with
                | None => PyFloat 1
                | Some t => t
                end))
         (arg_distribution a) (arg_validate_args a)
         (arg_allow_nan_stats a) (arg_name a).

(** The four parameter arguments, in the order [common_dtype] sees them. *)
Definition parameter_args (a : Args) : list (option PyValue) :=
  [Some (arg_loc a); Some (arg_scale a); arg_skewness a; arg_tailweight a].

(** Arguments that are all Python floats. *)
Definition float_args (l s k t : R) (validate allow_nan : bool) : Args :=
  mkArgs (PyFloat l) (PyFloat s) (Some (PyFloat k)) (Some (PyFloat t))
         None validate allow_nan "SinhArcsinh".

(** The tailweight argument passes the check that the sinh-arcsinh bijector
    makes when it is built with validation. *)
Definition tailweight_passes_validation (a : Args) : Prop :=
  match tailweight_or_default a with
  | PyFloat x => (0 < x)%R
  | PyTensor t => tf.is_ref t = true \/ tf.all_positive t = true
  end.

(** A parameter that is omitted, a Python float, or a tensor of rank 0. *)
Definition scalar_or_omitted (p : option PyValue) : Prop :=
  match p with
  | None => True
  | Some v => py_shape v = []
  end.

(* ================================================================== *)
(** ** The definitions on concrete inputs *)

Example broadcast_static_shape_3_1_with_4 :
  tf.broadcast_static_shape [3; 1] [4] = inr [3; 4].
Proof. reflexivity. Qed.

Example broadcast_static_shape_2_with_3 :
  tf.broadcast_static_shape [2] [3] = inl ValueError.
Proof. reflexivity. Qed.

Example broadcast_static_shape_0_with_1 :
  tf.broadcast_static_shape [0] [1] = inr [0].
Proof. reflexivity. Qed.

Example broadcast_shapes_of_four :
  broadcast_shapes [[]; [2; 1]; [3]; [1; 1; 1]] = Some [1; 2; 3].
Proof. reflexivity. Qed.

Example broadcast_shapes_incompatible :
  broadcast_shapes [[2]; []; [3]; []] = None.
Proof. reflexivity. Qed.

Example read_broadcasts_size_one :
  tf.read (tf.mkTensor tf.float32 [3; 1]
                       (fun i => match i with
                                 | [r; 0] => INR r
                                 | _ => (-1)%R
                                 end) false)
          [2; 5] = INR 2.
Proof. reflexivity. Qed.

Example common_dtype_of_floats_is_the_hint :
  dtype_util.common_dtype [Some (PyFloat 0); Some (PyFloat 1); None; None]
                          tf.float32 = inr tf.float32.
Proof. reflexivity. Qed.

Example common_dtype_mismatch :
  dtype_util.common_dtype
    [Some (PyTensor (tf.zeros [] tf.float32));
     Some (PyTensor (tf.ones [] tf.float64)); None; None]
    tf.float32 = inl TypeError.
Proof. reflexivity. Qed.

Example init_integer_loc_with_default_tailweight :
  __init__ (default_args (PyTensor (tf.zeros [] tf.int32))
                         (PyTensor (tf.ones [] tf.int32))) = inl TypeError.
Proof. reflexivity. Qed.

Example init_four_integer_tensors :
  __init__ (mkArgs (PyTensor (tf.zeros [] tf.int32))
                   (PyTensor (tf.ones [] tf.int32))
                   (Some (PyTensor (tf.zeros [] tf.int32)))
                   (Some (PyTensor (tf.ones [] tf.int32)))
                   None false true "SinhArcsinh") = inl TypeError.
Proof. reflexivity. Qed.

Example name_scope_of_a_name :
  tf.name_scope "SinhArcsinh" = "SinhArcsinh/"%string.
Proof. reflexivity. Qed.

Example name_scope_of_the_empty_name : tf.name_scope "" = ""%string.
Proof. reflexivity. Qed.

Example indices_of_2_by_3 :
  tf.indices [2; 3] = [[0; 0]; [0; 1]; [0; 2]; [1; 0]; [1; 1]; [1; 2]].
Proof. reflexivity. Qed.

Example indices_of_an_empty_tensor : tf.indices [2; 0] = [].
Proof. reflexivity. Qed.

Example init_records_the_call :
  exists self,
    __init__ (default_args (PyFloat 0) (PyFloat 1)) = inr self
    /\ _parameters self = default_args (PyFloat 0) (PyFloat 1)
    /\ distributions.name (super self) = "SinhArcsinh/"%string
    /\ distribution self =
         distributions.Normal (tf.zeros [] tf.float32) (tf.ones [] tf.float32)
                              true false.
Proof. eexists. repeat split. Qed.

(* ================================================================== *)
(** ** Inverting the constructor *)

Lemma bind_inr {A B : Type} (c : Result A) (k : A -> Result B) (b : B) :
  bind c k = inr b -> exists a, c = inr a /\ k a = inr b.
Proof.
  destruct c as [e | a]; simpl; intros H.
  - discriminate.
  - exists a; split; [reflexivity | assumption].
Qed.

(** What the constructor of the sinh-arcsinh bijector returns, and when. *)
Lemma new_SinhArcsinh_inr (k t : tf.Tensor) (va : bool)
      (f : bijectors.Bijector) :
  bijectors.new_SinhArcsinh k t va = inr f ->
  f = bijectors.SinhArcsinh k t va
  /\ tf.is_floating (tf.dtype t) = true
  /\ (va = true -> tf.is_ref t = true \/ tf.all_positive t = true).
Proof.
  unfold bijectors.new_SinhArcsinh.
  destruct (tf.is_floating (tf.dtype t)); cbn [negb]; [| discriminate].
  destruct va, (tf.is_ref t), (tf.all_positive t); cbn [andb negb];
    intros H; try discriminate; injection H as <-; auto.
Qed.

Lemma new_SinhArcsinh_accepts (k t : tf.Tensor) (va : bool) :
  tf.is_floating (tf.dtype t) = true ->
  (va = true -> tf.is_ref t = true \/ tf.all_positive t = true) ->
  bijectors.new_SinhArcsinh k t va = inr (bijectors.SinhArcsinh k t va).
Proof.
  intros Hfl Hva. unfold bijectors.new_SinhArcsinh. rewrite Hfl.
  cbn [negb]. destruct va; [| reflexivity].
  destruct (Hva eq_refl) as [-> | ->]; cbn [andb negb].
  - reflexivity.
  - rewrite andb_false_r. reflexivity.
Qed.

(** A successful construction went through every step of [__init__]. *)
Lemma init_inv (a : Args) (self : SinhArcsinh) :
  __init__ a = inr self ->
  exists dtype,
    dtype_util.common_dtype (parameter_args a) tf.float32 = inr dtype /\
    tensor_util.convert_nonref_to_tensor (arg_loc a) dtype = inr (_loc self) /\
    tensor_util.convert_nonref_to_tensor (arg_scale a) dtype
      = inr (_scale self) /\
    tensor_util.convert_nonref_to_tensor (tailweight_or_default a) dtype
      = inr (_tailweight self) /\
    tensor_util.convert_nonref_to_tensor (skewness_or_default a) dtype
      = inr (_skewness self) /\
    super self =
      distributions.mkTransformedDistribution
        (match arg_distribution a with
         | None =>
             default_distribution (_skewness self) (_tailweight self)
                                  (_loc self) (_scale self) dtype
                                  (arg_allow_nan_stats a) (arg_validate_args a)
         | Some d => d
         end)
        (make_bijector (_loc self) (_scale self) (_skewness self)
                       (_tailweight self) (arg_validate_args a))
        (arg_validate_args a)
        (tf.name_scope (arg_name a)) /\
    _parameters self = a.
Proof.
  unfold __init__, parameter_args, tailweight_or_default, skewness_or_default.
  intros H.
  apply bind_inr in H as (dtype & Hd & H).
  apply bind_inr in H as (l & Hl & H).
  apply bind_inr in H as (s & Hs & H).
  apply bind_inr in H as (t & Ht & H).
  apply bind_inr in H as (k & Hk & H).
  apply bind_inr in H as (f & Hf & H).
  apply new_SinhArcsinh_inr in Hf as (-> & _ & _).
  unfold ret in H. injection H as <-. simpl.
  exists dtype. repeat split; try assumption.
  destruct (arg_skewness a); assumption.
Qed.

(** A successful construction built the sinh-arcsinh bijector. *)
Lemma init_inv_bijector (a : Args) (self : SinhArcsinh) :
  __init__ a = inr self ->
  tf.is_floating (tf.dtype (_tailweight self)) = true
  /\ (arg_validate_args a = true ->
      tf.is_ref (_tailweight self) = true \/
      tf.all_positive (_tailweight self) = true).
Proof.
  unfold __init__. intros H.
  apply bind_inr in H as (dtype & Hd & H).
  apply bind_inr in H as (l & Hl & H).
  apply bind_inr in H as (s & Hs & H).
  apply bind_inr in H as (t & Ht & H).
  apply bind_inr in H as (k & Hk & H).
  apply bind_inr in H as (f & Hf & H).
  apply new_SinhArcsinh_inr in Hf as (_ & Hfl & Hva).
  unfold ret in H. injection H as <-. simpl. split; assumption.
Qed.

(** The accessors of the superclass, after a successful construction. *)
Lemma init_bijector (a : Args) (self : SinhArcsinh) :
  __init__ a = inr self ->
  bijector self =
    make_bijector (loc self) (scale self) (skewness self) (tailweight self)
                  (arg_validate_args a).
Proof.
  intros H. apply init_inv in H as (d & _ & _ & _ & _ & _ & Hsuper & _).
  unfold bijector. rewrite Hsuper. reflexivity.
Qed.

Lemma init_validate_args (a : Args) (self : SinhArcsinh) :
  __init__ a = inr self -> validate_args self = arg_validate_args a.
Proof.
  intros H. apply init_inv in H as (d & _ & _ & _ & _ & _ & Hsuper & _).
  unfold validate_args. rewrite Hsuper. reflexivity.
Qed.

Lemma init_distribution (a : Args) (self : SinhArcsinh) :
  __init__ a = inr self ->
  distribution self =
    match arg_distribution a with
    | None =>
        default_distribution (skewness self) (tailweight self)
                             (loc self) (scale self) (tf.dtype (loc self))
                             (arg_allow_nan_stats a) (arg_validate_args a)
    | Some d => d
    end.
Proof.
  intros H. apply init_inv in H as (d & _ & Hl & _ & _ & _ & Hsuper & _).
  unfold distribution. rewrite Hsuper. simpl.
  destruct (arg_distribution a); [reflexivity |].
  unfold loc. f_equal.
  unfold tensor_util.convert_nonref_to_tensor in Hl.
  destruct (arg_loc a) as [x | t].
  - destruct (tf.is_floating d); [| discriminate].
    injection Hl as <-. reflexivity.
  - destruct (tf.is_ref t);
      destruct (tf.dtype_eqb d (tf.dtype t)) eqn:E; try discriminate;
      injection Hl as <-; destruct d, (tf.dtype t); simpl in E;
      congruence.
Qed.

(** The positivity test on one value. *)
Lemma positive_true (x : R) : (0 < x)%R -> tf.positive x = true.
Proof.
  intros H. unfold tf.positive. destruct (Rlt_dec 0 x); [reflexivity | lra].
Qed.

Lemma positive_false (x : R) : (x <= 0)%R -> tf.positive x = false.
Proof.
  intros H. unfold tf.positive. destruct (Rlt_dec 0 x); [lra | reflexivity].
Qed.

Lemma all_positive_constant (x : R) (d : tf.DType) :
  tf.all_positive (tf.constant x d) = tf.positive x.
Proof. unfold tf.all_positive. simpl. apply andb_true_r. Qed.

(** Evaluates a construction whose tailweight passes the check of the
    sinh-arcsinh bijector; [tac] proves the positivity it needs. *)
Ltac construct_with tac :=
  unfold __init__;
  cbn -[bijectors.new_SinhArcsinh];
  rewrite new_SinhArcsinh_accepts;
  [ reflexivity
  | reflexivity
  | intros _; right; rewrite all_positive_constant; apply positive_true; tac ].

(** The constructor on Python floats: it succeeds unless validation is on
    and the tailweight is not positive. *)
Lemma init_float_args (l s k t : R) (va nan : bool) :
  (va = true -> (0 < t)%R) ->
  exists self,
    __init__ (float_args l s k t va nan) = inr self
    /\ loc self = tf.constant l tf.float32
    /\ scale self = tf.constant s tf.float32
    /\ skewness self = tf.constant k tf.float32
    /\ tailweight self = tf.constant t tf.float32
    /\ validate_args self = va.
Proof.
  intros Hva. eexists. split.
  - unfold __init__. cbn -[bijectors.new_SinhArcsinh].
    rewrite new_SinhArcsinh_accepts.
    + reflexivity.
    + reflexivity.
    + intros E. right. rewrite all_positive_constant.
      apply positive_true. apply Hva. exact E.
  - repeat split.
Qed.

Lemma init_float_args_rejected (l s k t : R) (nan : bool) :
  (t <= 0)%R ->
  __init__ (float_args l s k t true nan) = inl InvalidArgumentError.
Proof.
  intros Ht. unfold __init__. cbn -[bijectors.new_SinhArcsinh].
  unfold bijectors.new_SinhArcsinh. cbn [tf.dtype tf.constant tf.is_floating
                                         tf.is_ref negb andb].
  rewrite all_positive_constant, (positive_false t Ht). reflexivity.
Qed.

Example init_negative_tailweight_with_validation :
  __init__ (float_args 0 1 0 (-1) true true) = inl InvalidArgumentError.
Proof. apply init_float_args_rejected. lra. Qed.

Example init_negative_tailweight_without_validation :
  exists self,
    __init__ (float_args 0 1 0 (-1) false true) = inr self
    /\ tf.read (tailweight self) [] = (-1)%R.
Proof. eexists. split; reflexivity. Qed.

Example init_negative_scale_with_validation :
  exists self,
    __init__ (float_args 0 (-1) 0 1 true true) = inr self
    /\ tf.read (scale self) [] = (-1)%R.
Proof. eexists. split; [construct_with lra | reflexivity]. Qed.

(* ================================================================== *)
(** ** The transform: sinh-arcsinh first, then the affine map *)

(** A chain of two bijectors applies the second one first. *)
Lemma forward_chain2 (b1 b2 : bijectors.Bijector) (va : bool)
      (i : list nat) (z : R) :
  bijectors.forward (bijectors.Chain [b1; b2] va) i z =
  bijectors.forward b1 i (bijectors.forward b2 i z).
Proof. reflexivity. Qed.

Lemma forward_affine (l s : tf.Tensor) (i : list nat) (z : R) :
  bijectors.forward (make_affine l s) i z = (tf.read l i + tf.read s i * z)%R.
Proof. reflexivity. Qed.

Lemma forward_make_bijector (l s k t : tf.Tensor) (va : bool)
      (i : list nat) (z : R) :
  bijectors.forward (make_bijector l s k t va) i z =
  (tf.read l i + tf.read s i * bijectors.F (tf.read k i) (tf.read t i) z)%R.
Proof. reflexivity. Qed.

(** With no skew and unit tailweight the reshaping [F] is the identity. *)
Lemma F_identity (z : R) : bijectors.F 0 1 z = z.
Proof.
  unfold bijectors.F, bijectors.F_0.
  rewrite Rplus_0_r, !Rmult_1_r, !sinh_arcsinh.
  field.
Qed.



(** C9: for every constructed distribution, the default event-space bijector
    is the identity bijector (carrying the object's [validate_args]); its
    forward map leaves every real unchanged. *)
Theorem C9_default_event_space_bijector_is_identity
        (a : Args) (self : SinhArcsinh) :
  __init__ a = inr self ->
  _default_event_space_bijector self =
    bijectors.Identity (arg_validate_args a)
  /\ forall (i : list nat) (z : R),
       bijectors.forward (_default_event_space_bijector self) i z = z.
Proof.
  intros H. unfold _default_event_space_bijector.
  rewrite (init_validate_args a self H).
  split; [reflexivity | intros; reflexivity].
Qed.

Lemma C9_default_event_space_bijector_is_identity_witness :
  exists self,
    __init__ (default_args (PyFloat 0) (PyFloat 1)) = inr self
    /\ _default_event_space_bijector self = bijectors.Identity false.
Proof.
  eexists. split.
  - reflexivity.
  - apply (C9_default_event_space_bijector_is_identity
             (default_args (PyFloat 0) (PyFloat 1))).
    reflexivity.
Defined.

(* ================================================================== *)
(** ** Defaults of [skewness] and [tailweight] *)

(** Omitted arguments and Python floats carry no dtype, so writing the
    defaults out does not change the common dtype. *)
Lemma common_dtype_explicit_defaults (a : Args) :
  dtype_util.common_dtype (parameter_args (with_explicit_defaults a))
                          tf.float32 =
  dtype_util.common_dtype (parameter_args a) tf.float32.
Proof.
  unfold with_explicit_defaults, parameter_args. simpl.
  destruct (arg_skewness a), (arg_tailweight a); reflexivity.
Qed.

(** Constructing with the defaults written out builds the same object, but
    for the recorded call arguments. *)
Lemma init_explicit_defaults (a : Args) :
  __init__ (with_explicit_defaults a) =
  match __init__ a with
  | inl e => inl e
  | inr s =>
      inr (mkSinhArcsinh (_loc s) (_scale s) (_tailweight s) (_skewness s)
                         (super s) (with_explicit_defaults a))
  end.
Proof.
  pose proof (common_dtype_explicit_defaults a) as Hc.
  unfold parameter_args in Hc.
  destruct a as [l s k t dist va nan nm].
  unfold __init__.
  cbn [with_explicit_defaults arg_loc arg_scale arg_skewness
       arg_tailweight arg_distribution arg_validate_args
       arg_allow_nan_stats arg_name] in *.
  rewrite Hc. clear Hc.
  destruct (dtype_util.common_dtype [Some l; Some s; k; t] tf.float32)
    as [e | d]; [reflexivity |].
  cbn [bind].
  destruct (tensor_util.convert_nonref_to_tensor l d);
    [reflexivity |]; cbn [bind].
  destruct (tensor_util.convert_nonref_to_tensor s d);
    [reflexivity |]; cbn [bind].
  destruct t as [t |], k as [k |];
    repeat match goal with
           | |- context [bind (tensor_util.convert_nonref_to_tensor ?v d) _] =>
               destruct (tensor_util.convert_nonref_to_tensor v d);
               [reflexivity |]; cbn [bind]
           end;
    match goal with
    | |- context [bijectors.new_SinhArcsinh ?k ?t ?v] =>
        destruct (bijectors.new_SinhArcsinh k t v)
    end;
    reflexivity.
Qed.

(** C10: an omitted [skewness] is replaced by the Python float [0.] and an
    omitted [tailweight] by [1.] before the conversion to the common dtype:
    the stored tensors are the conversions of those floats, the construction
    is the one obtained with the defaults written out, and an object built
    from [loc] and [scale] alone reads skewness 0 and tailweight 1
    everywhere. *)
Theorem C10_omitted_skewness_and_tailweight_defaults
        (a : Args) (self : SinhArcsinh) :
  __init__ a = inr self ->
  (arg_skewness a = None ->
     exists dtype,
       dtype_util.common_dtype (parameter_args a) tf.float32 = inr dtype /\
       tensor_util.convert_nonref_to_tensor (PyFloat 0) dtype
         = inr (skewness self) /\
       skewness self = tf.constant 0 dtype)
  /\ (arg_tailweight a = None ->
     exists dtype,
       dtype_util.common_dtype (parameter_args a) tf.float32 = inr dtype /\
       tensor_util.convert_nonref_to_tensor (PyFloat 1) dtype
         = inr (tailweight self) /\
       tailweight self = tf.constant 1 dtype)
  /\ __init__ (with_explicit_defaults a) =
       inr (mkSinhArcsinh (_loc self) (_scale self) (_tailweight self)
                          (_skewness self) (super self)
                          (with_explicit_defaults a))
  /\ (arg_skewness a = None -> arg_tailweight a = None ->
      forall i, tf.read (skewness self) i = 0%R /\
                tf.read (tailweight self) i = 1%R).
Proof.
  intros H.
  pose proof (init_inv a self H) as (d & Hd & _ & _ & Ht & Hk & _ & _).
  assert (Hsk : arg_skewness a = None ->
                tensor_util.convert_nonref_to_tensor (PyFloat 0) d
                  = inr (skewness self) /\
                skewness self = tf.constant 0 d).
  { intros E. unfold skewness_or_default in Hk. rewrite E in Hk.
    split; [exact Hk |].
    simpl in Hk. destruct (tf.is_floating d); [| discriminate].
    injection Hk as Hk. symmetry. exact Hk. }
  assert (Htw : arg_tailweight a = None ->
                tensor_util.convert_nonref_to_tensor (PyFloat 1) d
                  = inr (tailweight self) /\
                tailweight self = tf.constant 1 d).
  { intros E. unfold tailweight_or_default in Ht. rewrite E in Ht.
    split; [exact Ht |].
    simpl in Ht. destruct (tf.is_floating d); [| discriminate].
    injection Ht as Ht. symmetry. exact Ht. }
  repeat split.
  - intros E. exists d. destruct (Hsk E). auto.
  - intros E. exists d. destruct (Htw E). auto.
  - rewrite init_explicit_defaults, H. reflexivity.
  - destruct (Hsk H0) as [_ ->]. reflexivity.
  - destruct (Htw H1) as [_ ->]. reflexivity.
Qed.

Lemma C10_omitted_skewness_and_tailweight_defaults_witness :
  exists self,
    __init__ (default_args (PyFloat 5) (PyFloat 2)) = inr self
    /\ forall i, tf.read (skewness self) i = 0%R /\
                 tf.read (tailweight self) i = 1%R.
Proof.
  eexists. split.
  - reflexivity.
  - apply (C10_omitted_skewness_and_tailweight_defaults
             (default_args (PyFloat 5) (PyFloat 2)));
      reflexivity.
Defined.

(* ================================================================== *)
(** ** The parameters after construction *)

(** No method changes the object. *)
Lemma invoke_preserves (m : Method) (self : SinhArcsinh) :
  fst (invoke m self) = self.
Proof. destruct m; reflexivity. Qed.

Lemma after_preserves (ms : list Method) (self : SinhArcsinh) :
  after ms self = self.
Proof.
  revert self. induction ms as [| m ms IH]; intros self; simpl.
  - reflexivity.
  - rewrite invoke_preserves. apply IH.
Qed.

(** A reference is stored as it is. *)
Lemma convert_ref (t r : tf.Tensor) (dtype : tf.DType) :
  tensor_util.convert_nonref_to_tensor (PyTensor t) dtype = inr r -> r = t.
Proof.
  unfold tensor_util.convert_nonref_to_tensor.
  destruct (tf.is_ref t), (tf.dtype_eqb dtype (tf.dtype t));
    intros H; try discriminate; injection H as <-; reflexivity.
Qed.

(** C7: after construction the four parameters are never changed.  After
    any sequence of calls of the methods of the class, each accessor still
    returns exactly the tensor reference that the constructor stored (the
    conversion of the corresponding argument; the argument itself when it is
    a tensor-like object), the four fields are those set by [__init__], and
    an assignment to one of the properties is refused. *)
Theorem C7_parameters_never_mutated
        (a : Args) (self : SinhArcsinh) (ms : list Method) :
  __init__ a = inr self ->
  let self' := after ms self in
  (_loc self' = _loc self /\ _scale self' = _scale self /\
   _tailweight self' = _tailweight self /\ _skewness self' = _skewness self)
  /\ (snd (invoke call_loc self') = ReturnedTensor (_loc self) /\
      snd (invoke call_scale self') = ReturnedTensor (_scale self) /\
      snd (invoke call_tailweight self') = ReturnedTensor (_tailweight self) /\
      snd (invoke call_skewness self') = ReturnedTensor (_skewness self))
  /\ (exists dtype,
        tensor_util.convert_nonref_to_tensor (arg_loc a) dtype
          = inr (loc self') /\
        tensor_util.convert_nonref_to_tensor (arg_scale a) dtype
          = inr (scale self') /\
        tensor_util.convert_nonref_to_tensor (tailweight_or_default a) dtype
          = inr (tailweight self') /\
        tensor_util.convert_nonref_to_tensor (skewness_or_default a) dtype
          = inr (skewness self'))
  /\ (forall p v, invoke (assign p v) self' = (self', Raised AttributeError))
  /\ (forall t, arg_loc a = PyTensor t -> loc self' = t)
  /\ (forall t, arg_scale a = PyTensor t -> scale self' = t)
  /\ (forall t, arg_tailweight a = Some (PyTensor t) -> tailweight self' = t)
  /\ (forall t, arg_skewness a = Some (PyTensor t) -> skewness self' = t).
Proof.
  intros H self'. subst self'. rewrite after_preserves.
  pose proof (init_inv a self H) as (d & _ & Hl & Hs & Ht & Hk & _ & _).
  split; [repeat split |].
  split; [repeat split |].
  split; [exists d; repeat split; assumption |].
  split; [reflexivity |].
  unfold loc, scale, tailweight, skewness.
  unfold tailweight_or_default in Ht. unfold skewness_or_default in Hk.
  repeat split; intros t E; rewrite E in *; eapply convert_ref; eassumption.
Qed.

Lemma C7_parameters_never_mutated_witness :
  exists self,
    __init__ (default_args
                (PyTensor (tf.mkTensor tf.float64 [2] (fun _ => 0%R) true))
                (PyFloat 1)) = inr self
    /\ loc (after [call_batch_shape; call_loc; call_scale] self) =
       tf.mkTensor tf.float64 [2] (fun _ => 0%R) true.
Proof.
  eexists. split.
  - reflexivity.
  - apply (C7_parameters_never_mutated
             (default_args
                (PyTensor (tf.mkTensor tf.float64 [2] (fun _ => 0%R) true))
                (PyFloat 1))).
    + reflexivity.
    + reflexivity.
Defined.

(* ================================================================== *)
(** ** The common dtype *)

(** A successful conversion yields a tensor of the requested dtype. *)
Lemma convert_dtype (v : PyValue) (dtype : tf.DType) (r : tf.Tensor) :
  tensor_util.convert_nonref_to_tensor v dtype = inr r -> tf.dtype r = dtype.
Proof.
  unfold tensor_util.convert_nonref_to_tensor.
  destruct v as [x | t].
  - destruct (tf.is_floating dtype); intros H; [| discriminate].
    injection H as <-. reflexivity.
  - destruct (tf.is_ref t);
      destruct (tf.dtype_eqb dtype (tf.dtype t)) eqn:E; intros H;
      try discriminate; injection H as <-;
      destruct dtype, (tf.dtype t); simpl in E; congruence.
Qed.

Lemma dtype_eqb_eq (x y : tf.DType) : tf.dtype_eqb x y = true -> x = y.
Proof. destruct x, y; simpl; congruence. Qed.

(** What the loop of [common_dtype] returns: the dtype it started with, or
    the one carried by some argument; never [None] once it holds a dtype. *)
Lemma common_dtype_loop_result (l : list (option PyValue))
      (acc r : option tf.DType) :
  dtype_util.common_dtype_loop l acc = inr r ->
  (r = acc /\ forall p, In p l -> dtype_util.dtype_of p = None)
  \/ (exists p d, In p l /\ dtype_util.dtype_of p = Some d /\ r = Some d)
  \/ (exists d, acc = Some d /\ r = Some d).
Proof.
  revert acc. induction l as [| p l IH]; intros acc H; simpl in H.
  - left. injection H as <-. split; [reflexivity | intros p []].
  - destruct (dtype_util.dtype_of p) as [dt |] eqn:Ep.
    + destruct acc as [d |].
      * destruct (tf.dtype_eqb d dt) eqn:E; [| discriminate].
        apply IH in H as [[-> _] | [(q & d' & Hq & Hd & ->) | (d' & Hd & ->)]].
        -- right; right. exists d. auto.
        -- right; left. exists q, d'. simpl. auto.
        -- right; right. exists d'. auto.
      * apply IH in H as [[-> _] | [(q & d' & Hq & Hd & ->) | (d' & Hd & ->)]].
        -- right; left. exists p, dt. simpl. auto.
        -- right; left. exists q, d'. simpl. auto.
        -- right; left. exists p, dt. injection Hd as <-. simpl. auto.
    + apply IH in H as [[-> Hn] | [(q & d' & Hq & Hd & ->) | (d' & Hd & ->)]].
      * left. split; [reflexivity |]. intros q [<- | Hq]; auto.
      * right; left. exists q, d'. simpl. auto.
      * right; right. exists d'. auto.
Qed.

(** The common dtype is the hint when no argument carries a dtype, and
    otherwise a dtype carried by one of the arguments. *)
Lemma common_dtype_result (l : list (option PyValue))
      (hint d : tf.DType) :
  dtype_util.common_dtype l hint = inr d ->
  (d = hint /\ forall p, In p l -> dtype_util.dtype_of p = None)
  \/ (exists p, In p l /\ dtype_util.dtype_of p = Some d).
Proof.
  unfold dtype_util.common_dtype. intros H.
  apply bind_inr in H as (r & Hr & H). injection H as <-.
  apply common_dtype_loop_result in Hr
    as [[-> Hn] | [(q & d' & Hq & Hd & ->) | (d' & Hd & _)]].
  - left. auto.
  - right. exists q. auto.
  - discriminate.
Qed.

(** A Python float converts only to a floating-point dtype. *)
Lemma convert_float_floating (x : R) (dtype : tf.DType) (r : tf.Tensor) :
  tensor_util.convert_nonref_to_tensor (PyFloat x) dtype = inr r ->
  tf.is_floating dtype = true.
Proof.
  simpl. destruct (tf.is_floating dtype); [reflexivity | discriminate].
Qed.

(** C8: at construction the four parameters are converted to one common
    floating-point dtype: the stored tensors are the conversions of the
    arguments (of the defaults [0.] and [1.] for an omitted skewness and
    tailweight) to the dtype returned by [common_dtype], they all have that
    dtype, it is a floating-point one, and it is [float32] when no parameter
    carries a dtype. *)
Theorem C8_parameters_share_one_dtype (a : Args) (self : SinhArcsinh) :
  __init__ a = inr self ->
  exists dtype,
    dtype_util.common_dtype (parameter_args a) tf.float32 = inr dtype
    /\ tf.is_floating dtype = true
    /\ (tensor_util.convert_nonref_to_tensor (arg_loc a) dtype
          = inr (loc self) /\
        tensor_util.convert_nonref_to_tensor (arg_scale a) dtype
          = inr (scale self) /\
        tensor_util.convert_nonref_to_tensor (skewness_or_default a) dtype
          = inr (skewness self) /\
        tensor_util.convert_nonref_to_tensor (tailweight_or_default a) dtype
          = inr (tailweight self))
    /\ (tf.dtype (loc self) = dtype /\ tf.dtype (scale self) = dtype /\
        tf.dtype (skewness self) = dtype /\
        tf.dtype (tailweight self) = dtype)
    /\ ((forall p, In p (parameter_args a) -> dtype_util.dtype_of p = None) ->
        dtype = tf.float32).
Proof.
  intros H.
  pose proof (init_inv a self H) as (d & Hd & Hl & Hs & Ht & Hk & _ & _).
  pose proof (init_inv_bijector a self H) as (Hfl & _).
  exists d. split; [exact Hd |].
  split.
  { rewrite <- (convert_dtype _ _ _ Ht). exact Hfl. }
  split.
  { unfold loc, scale, skewness, tailweight. repeat split; assumption. }
  split.
  { unfold loc, scale, skewness, tailweight.
    repeat split; eapply convert_dtype; eassumption. }
  intros Hnone.
  destruct (common_dtype_result _ _ _ Hd) as [[-> _] | (p & Hp & Hpd)].
  - reflexivity.
  - rewrite (Hnone p Hp) in Hpd. discriminate.
Qed.

Lemma C8_parameters_share_one_dtype_witness :
  exists self,
    __init__ (mkArgs (PyTensor (tf.mkTensor tf.float64 [2] (fun _ => 0%R) false))
                     (PyFloat 1) None (Some (PyFloat 2)) None false true
                     "SinhArcsinh") = inr self
    /\ tf.is_floating (tf.dtype (loc self)) = true
    /\ tf.dtype (loc self) = tf.dtype (scale self)
    /\ tf.dtype (loc self) = tf.dtype (skewness self)
    /\ tf.dtype (loc self) = tf.dtype (tailweight self).
Proof.
  eexists. split.
  - reflexivity.
  - destruct (C8_parameters_share_one_dtype
                (mkArgs (PyTensor (tf.mkTensor tf.float64 [2]
                                               (fun _ => 0%R) false))
                        (PyFloat 1) None (Some (PyFloat 2)) None false true
                        "SinhArcsinh") _ eq_refl)
      as (d & _ & Hfl & _ & (H1 & H2 & H3 & H4) & _).
    rewrite H1, H2, H3, H4. repeat split. exact Hfl.
Defined.

(* ================================================================== *)
(** ** Parameter properties *)

Lemma inv_pow2_positive (n : nat) : (0 < / 2 ^ n)%R.
Proof. apply Rinv_0_lt_compat, pow_lt. lra. Qed.

Lemma eps_positive (dtype : tf.DType) (low : R) :
  dtype_util.eps dtype = inr low -> (0 < low)%R.
Proof.
  destruct dtype; unfold dtype_util.eps, ret, raise; intros H;
    try discriminate; injection H as <-.
  - exact (inv_pow2_positive 10).
  - exact (inv_pow2_positive 23).
  - exact (inv_pow2_positive 52).
Qed.


(** The softplus bijector stays strictly above its lower bound. *)
Lemma softplus_above_low (low : R) (va : bool) (i : list nat) (z : R) :
  (low < bijectors.forward (bijectors.Softplus low va) i z)%R.
Proof.
  simpl.
  assert (0 < ln (1 + exp z))%R.
  { rewrite <- ln_1. apply ln_increasing; [lra |].
    pose proof (exp_pos z). lra. }
  lra.
Qed.



(* ================================================================== *)
(** ** Broadcasting of shapes *)

Section Sequence.

Variable A : Type.
Variable default : A.

Lemma sequence_seq_S (f : nat -> option A) (n : nat) :
  sequence (map f (seq 0 (S n))) =
  match f 0, sequence (map (fun k => f (S k)) (seq 0 n)) with
  | Some d, Some ds => Some (d :: ds)
  | _, _ => None
  end.
Proof.
  cbn [seq map sequence]. rewrite <- seq_shift, map_map.
  destruct (f 0); [| reflexivity].
  destruct (sequence _); reflexivity.
Qed.

Lemma sequence_seq_ext (f g : nat -> option A) (n : nat) :
  (forall k, k < n -> f k = g k) ->
  sequence (map f (seq 0 n)) = sequence (map g (seq 0 n)).
Proof.
  intros H. f_equal. apply map_ext_in. intros k Hk.
  apply in_seq in Hk. apply H. lia.
Qed.

(** A defined sequence lists the values of [f] in order. *)
Lemma sequence_seq_some (n : nat) :
  forall (f : nat -> option A) (ds : list A),
    sequence (map f (seq 0 n)) = Some ds ->
    List.length ds = n /\ forall k, k < n -> f k = Some (nth k ds default).
Proof.
  induction n as [| n IH]; intros f ds H.
  - simpl in H. injection H as <-. split; [reflexivity | lia].
  - rewrite sequence_seq_S in H.
    destruct (f 0) as [d |] eqn:E0; [| discriminate].
    destruct (sequence _) as [ds' |] eqn:E; [| discriminate].
    injection H as <-.
    destruct (IH _ _ E) as [Hlen Hnth].
    split; [simpl; congruence |].
    intros [| k] Hk; simpl; [assumption | apply Hnth; lia].
Qed.

(** An undefined sequence has an undefined member, and conversely. *)
Lemma sequence_seq_none (n : nat) :
  forall (f : nat -> option A),
    sequence (map f (seq 0 n)) = None <->
    exists k, k < n /\ f k = None.
Proof.
  induction n as [| n IH]; intros f.
  - simpl. split; [discriminate | intros (k & Hk & _); lia].
  - rewrite sequence_seq_S. split.
    + destruct (f 0) as [d |] eqn:E0.
      * destruct (sequence _) as [ds' |] eqn:E; [discriminate |].
        intros _. apply IH in E as (k & Hk & Hf).
        exists (S k). split; [lia | assumption].
      * intros _. exists 0. split; [lia | assumption].
    + intros ([| k] & Hk & Hf).
      * rewrite Hf. reflexivity.
      * destruct (f 0); [| reflexivity].
        assert (E : sequence (map (fun k => f (S k)) (seq 0 n)) = None).
        { apply IH. exists k. split; [lia | assumption]. }
        rewrite E. reflexivity.
Qed.

End Sequence.

(** Broadcasting against the empty shape, and against all-ones. *)
Lemma broadcast_dim_1_l (d : nat) : tf.broadcast_dim 1 d = Some d.
Proof. reflexivity. Qed.

Lemma broadcast_dim_1_r (d : nat) : tf.broadcast_dim d 1 = Some d.
Proof.
  unfold tf.broadcast_dim. destruct (d =? 1) eqn:E.
  - apply Nat.eqb_eq in E. subst. reflexivity.
  - reflexivity.
Qed.

Lemma broadcast_dims_ones_l (y : list nat) :
  tf.broadcast_dims (map (fun b => (1, b)) y) = Some y.
Proof.
  induction y as [| b y IH]; [reflexivity |].
  cbn [map tf.broadcast_dims]. rewrite broadcast_dim_1_l, IH. reflexivity.
Qed.

Lemma broadcast_dims_nil_r (x : list nat) :
  tf.broadcast_dims (tf.zip_longest x []) = Some x.
Proof.
  induction x as [| a x IH]; [reflexivity |].
  cbn [tf.zip_longest tf.broadcast_dims].
  rewrite broadcast_dim_1_r, IH. reflexivity.
Qed.

Lemma zip_longest_ones_l (y : list nat) :
  tf.zip_longest (repeat 1 (List.length y)) y = map (fun b => (1, b)) y.
Proof.
  induction y as [| b y IH]; [reflexivity |].
  simpl. rewrite IH. reflexivity.
Qed.

Lemma rev_repeat_ones (n : nat) : rev (repeat 1 n) = repeat 1 n.
Proof.
  induction n as [| n IH]; [reflexivity |].
  simpl. rewrite IH. symmetry. apply repeat_cons.
Qed.

Lemma broadcast_static_shape_nil_r (x : tf.TensorShape) :
  tf.broadcast_static_shape x [] = inr x.
Proof.
  unfold tf.broadcast_static_shape. simpl.
  rewrite broadcast_dims_nil_r, rev_involutive. reflexivity.
Qed.

Lemma broadcast_static_shape_ones_l (s : tf.TensorShape) :
  tf.broadcast_static_shape (repeat 1 (List.length s)) s = inr s.
Proof.
  unfold tf.broadcast_static_shape.
  rewrite rev_repeat_ones, <- length_rev, zip_longest_ones_l.
  rewrite broadcast_dims_ones_l, rev_involutive. reflexivity.
Qed.

(** The pairwise broadcast, dimension by dimension. *)
Lemma broadcast_dims_pointwise (x : list nat) :
  forall y,
    tf.broadcast_dims (tf.zip_longest x y) =
    sequence
      (map (fun k => tf.broadcast_dim (nth k x 1) (nth k y 1))
           (seq 0 (Nat.max (List.length x) (List.length y)))).
Proof.
  induction x as [| a x IH]; intros y.
  - cbn [tf.zip_longest List.length Nat.max].
    rewrite broadcast_dims_ones_l.
    induction y as [| b y IHy]; [reflexivity |].
    cbn [List.length]. rewrite sequence_seq_S.
    cbn [nth]. rewrite broadcast_dim_1_l.
    rewrite (sequence_seq_ext _
               (fun k => tf.broadcast_dim (nth (S k) [] 1) (nth (S k) (b :: y) 1))
               (fun k => tf.broadcast_dim (nth k [] 1) (nth k y 1))).
    + rewrite <- IHy. reflexivity.
    + intros k _. destruct k; reflexivity.
  - destruct y as [| b y].
    + cbn [tf.zip_longest tf.broadcast_dims List.length].
      rewrite Nat.max_0_r, sequence_seq_S. cbn [nth].
      rewrite (sequence_seq_ext _
                 (fun k => tf.broadcast_dim (nth (S k) (a :: x) 1)
                                            (nth (S k) [] 1))
                 (fun k => tf.broadcast_dim (nth k x 1) (nth k [] 1))).
      * rewrite (IH []). cbn [List.length]. rewrite Nat.max_0_r.
        destruct (tf.broadcast_dim a 1); reflexivity.
      * intros k _. destruct k; reflexivity.
    + cbn [tf.zip_longest tf.broadcast_dims List.length].
      rewrite <- Nat.succ_max_distr, sequence_seq_S. cbn [nth].
      rewrite (IH y).
      destruct (tf.broadcast_dim a b); reflexivity.
Qed.

(** Adding one shape to a family: the common size of a dimension. *)
Lemma common_dim_snoc (c : list nat) (d : nat) :
  common_dim (c ++ [d]) =
  match common_dim c with
  | Some e => tf.broadcast_dim e d
  | None => None
  end.
Proof.
  unfold common_dim. rewrite filter_app.
  destruct (filter (fun d0 => negb (d0 =? 1)) c) as [| e rest] eqn:E.
  - rewrite broadcast_dim_1_l. cbn [app filter].
    destruct (d =? 1) eqn:Ed; cbn [negb].
    + apply Nat.eqb_eq in Ed. subst. reflexivity.
    + reflexivity.
  - assert (He : (e =? 1) = false).
    { assert (Hin : In e (filter (fun d0 => negb (d0 =? 1)) c))
        by (rewrite E; left; reflexivity).
      apply filter_In in Hin as [_ Hin].
      destruct (e =? 1); [discriminate | reflexivity]. }
    cbn [app]. rewrite forallb_app.
    destruct (forallb (Nat.eqb e) rest); cbn [andb]; [| reflexivity].
    unfold tf.broadcast_dim. rewrite He. cbn [filter].
    destruct (d =? 1); cbn [negb forallb]; [reflexivity |].
    rewrite andb_true_r. reflexivity.
Qed.

Lemma length_le_max_rank (l : list (list nat)) (x : list nat) :
  In x l -> List.length x <= fold_right Nat.max 0 (map (@List.length nat) l).
Proof.
  induction l as [| y l IH]; [intros [] |].
  intros [<- | Hin]; simpl.
  - lia.
  - specialize (IH Hin). lia.
Qed.

(** Beyond the largest rank every shape counts as 1. *)
Lemma common_dim_beyond_rank (l : list (list nat)) (k : nat) :
  fold_right Nat.max 0 (map (@List.length nat) l) <= k ->
  common_dim (map (fun x => nth k x 1) l) = Some 1.
Proof.
  intros Hk. unfold common_dim.
  assert (E : filter (fun d => negb (d =? 1)) (map (fun x => nth k x 1) l)
              = []).
  { assert (H : forall x, In x l -> nth k x 1 = 1).
    { intros x Hin. apply nth_overflow.
      pose proof (length_le_max_rank l x Hin). lia. }
    clear Hk. induction l as [| y l IH]; [reflexivity |].
    cbn [map filter]. rewrite (H y (or_introl eq_refl)). cbn.
    apply IH. intros x Hin. apply H. right. assumption. }
  rewrite E. reflexivity.
Qed.

Lemma max_rank_snoc (l : list (list nat)) (x : list nat) :
  fold_right Nat.max 0 (map (@List.length nat) (l ++ [x])) =
  Nat.max (fold_right Nat.max 0 (map (@List.length nat) l)) (List.length x).
Proof.
  induction l as [| y l IH]; simpl.
  - lia.
  - rewrite IH. lia.
Qed.

(** Broadcasting the broadcast of a family with one more shape is the
    broadcast of the extended family; failure is kept. *)
Lemma broadcast_reversed_snoc (l : list (list nat)) (x : list nat) :
  broadcast_reversed (l ++ [x]) =
  match broadcast_reversed l with
  | Some acc => tf.broadcast_dims (tf.zip_longest acc x)
  | None => None
  end.
Proof.
  unfold broadcast_reversed at 1. rewrite max_rank_snoc.
  set (n := fold_right Nat.max 0 (map (@List.length nat) l)).
  rewrite (sequence_seq_ext _ _
             (fun k => match common_dim (map (fun y => nth k y 1) l) with
                       | Some e => tf.broadcast_dim e (nth k x 1)
                       | None => None
                       end)).
  2:{ intros k _. rewrite map_app. cbn [map]. apply common_dim_snoc. }
  destruct (broadcast_reversed l) as [acc |] eqn:E.
  - unfold broadcast_reversed in E. fold n in E.
    destruct (sequence_seq_some _ 1 n _ _ E) as [Hlen Hnth].
    rewrite broadcast_dims_pointwise, Hlen.
    apply sequence_seq_ext. intros k _.
    destruct (Nat.lt_ge_cases k n) as [Hk | Hk].
    + rewrite (Hnth k Hk). reflexivity.
    + rewrite (common_dim_beyond_rank l k Hk).
      rewrite (nth_overflow acc 1) by lia. reflexivity.
  - unfold broadcast_reversed in E. fold n in E.
    apply sequence_seq_none in E as (k & Hk & Hf).
    apply sequence_seq_none. exists k. split; [lia |].
    rewrite Hf. reflexivity.
Qed.

Lemma broadcast_reversed_single (x : list nat) :
  broadcast_reversed [x] = Some x.
Proof.
  change [x] with ([] ++ [x]).
  rewrite broadcast_reversed_snoc.
  change (broadcast_reversed []) with (Some (@nil nat)).
  cbn [tf.zip_longest]. apply broadcast_dims_ones_l.
Qed.

(** The declarative broadcast, through reversed shapes. *)
Lemma broadcast_shapes_reversed (shapes : list tf.TensorShape) :
  broadcast_shapes shapes =
  option_map (@rev nat) (broadcast_reversed (map (@rev nat) shapes)).
Proof.
  unfold broadcast_shapes, broadcast_reversed, dim_from_end.
  rewrite map_map.
  rewrite (map_ext (fun s => List.length (rev s)) (@List.length nat))
    by (intros; apply length_rev).
  rewrite (map_ext
             (fun k => common_dim
                         (map (fun x => nth k x 1) (map (@rev nat) shapes)))
             (fun k => common_dim (map (fun s => nth k (rev s) 1) shapes)))
    by (intros; rewrite map_map; reflexivity).
  destruct (sequence _); reflexivity.
Qed.

(** One more shape in the loop of [_batch_shape]. *)
Lemma broadcast_with_snoc (done : list tf.TensorShape) (t : tf.Tensor) :
  broadcast_with (shape_result (broadcast_shapes done)) t =
  shape_result (broadcast_shapes (done ++ [tf.shape t])).
Proof.
  rewrite !broadcast_shapes_reversed, map_app. cbn [map].
  rewrite broadcast_reversed_snoc.
  unfold tf.TensorShape.
  destruct (broadcast_reversed (map (@rev nat) done)) as [acc |];
    [| reflexivity].
  cbn [option_map shape_result broadcast_with bind ret].
  unfold tf.broadcast_static_shape. rewrite rev_involutive.
  destruct (tf.broadcast_dims _); reflexivity.
Qed.

Lemma fold_broadcast_with (ts : list tf.Tensor) :
  forall done : list tf.TensorShape,
    fold_left broadcast_with ts (shape_result (broadcast_shapes done)) =
    shape_result (broadcast_shapes (done ++ map tf.shape ts)).
Proof.
  induction ts as [| t ts IH]; intros done.
  - cbn [fold_left map]. rewrite app_nil_r. reflexivity.
  - cbn [fold_left map]. rewrite broadcast_with_snoc, IH, <- app_assoc.
    reflexivity.
Qed.

Lemma broadcast_shapes_single (s : tf.TensorShape) :
  broadcast_shapes [s] = Some s.
Proof.
  rewrite broadcast_shapes_reversed. cbn [map].
  rewrite broadcast_reversed_single. cbn [option_map].
  rewrite rev_involutive. reflexivity.
Qed.

(** The recursive helper of [get_broadcast_shape] is the same loop. *)
Lemma broadcast_rest_fold (ts : list tf.Tensor) :
  forall r : Result tf.TensorShape,
    (s <- r ;; distribution_util.broadcast_rest s ts) =
    fold_left broadcast_with ts r.
Proof.
  induction ts as [| t ts IH]; intros r.
  - destruct r; reflexivity.
  - cbn [fold_left]. rewrite <- IH.
    destruct r as [e | s]; reflexivity.
Qed.

(** A conversion keeps the shape of the argument. *)
Lemma convert_shape (v : PyValue) (dtype : tf.DType) (r : tf.Tensor) :
  tensor_util.convert_nonref_to_tensor v dtype = inr r ->
  tf.shape r = py_shape v.
Proof.
  unfold tensor_util.convert_nonref_to_tensor.
  destruct v as [x | t].
  - destruct (tf.is_floating dtype); intros H; [| discriminate].
    injection H as <-. reflexivity.
  - destruct (tf.is_ref t), (tf.dtype_eqb dtype (tf.dtype t));
      intros H; try discriminate; injection H as <-; reflexivity.
Qed.

(** C2: for every constructed distribution, the static batch shape
    ([_batch_shape]) and the dynamic one ([_batch_shape_tensor]) are both the
    broadcast of the shapes of [skewness], [tailweight], [loc] and [scale]
    (a [ValueError] when these do not broadcast); the shapes are those of
    the arguments, a Python float or an omitted argument being a scalar. *)
Theorem C2_batch_shape_is_broadcast_of_parameters
        (a : Args) (self : SinhArcsinh) :
  __init__ a = inr self ->
  _batch_shape self = shape_result (broadcast_shapes (parameter_shapes self))
  /\ _batch_shape_tensor self =
       shape_result (broadcast_shapes (parameter_shapes self))
  /\ parameter_shapes self =
       map py_shape [skewness_or_default a; tailweight_or_default a;
                     arg_loc a; arg_scale a].
Proof.
  intros H.
  assert (Hfold :
            fold_left broadcast_with
                      [tailweight self; loc self; scale self]
                      (ret (tf.shape (skewness self))) =
            shape_result (broadcast_shapes (parameter_shapes self))).
  { change (ret (tf.shape (skewness self)))
      with (shape_result (Some (tf.shape (skewness self)))).
    rewrite <- (broadcast_shapes_single (tf.shape (skewness self))).
    rewrite fold_broadcast_with. reflexivity. }
  split; [exact Hfold |].
  split.
  - unfold _batch_shape_tensor, distribution_util.get_broadcast_shape.
    rewrite <- Hfold, <- broadcast_rest_fold. reflexivity.
  - pose proof (init_inv a self H) as (d & _ & Hl & Hs & Ht & Hk & _ & _).
    unfold parameter_shapes, skewness, tailweight, loc, scale. cbn [map].
    rewrite (convert_shape _ _ _ Hl), (convert_shape _ _ _ Hs),
      (convert_shape _ _ _ Ht), (convert_shape _ _ _ Hk).
    reflexivity.
Qed.

Lemma C2_batch_shape_is_broadcast_of_parameters_witness :
  exists self,
    __init__ (mkArgs
                (PyTensor (tf.mkTensor tf.float32 [3; 1] (fun _ => 0%R) false))
                (PyTensor (tf.mkTensor tf.float32 [4] (fun _ => 1%R) false))
                None (Some (PyFloat 2)) None false true "SinhArcsinh")
      = inr self
    /\ _batch_shape self = inr [3; 4]
    /\ _batch_shape_tensor self = inr [3; 4].
Proof.
  eexists. split; [reflexivity |].
  destruct (C2_batch_shape_is_broadcast_of_parameters
              (mkArgs
                 (PyTensor (tf.mkTensor tf.float32 [3; 1] (fun _ => 0%R) false))
                 (PyTensor (tf.mkTensor tf.float32 [4] (fun _ => 1%R) false))
                 None (Some (PyFloat 2)) None false true "SinhArcsinh")
              _ eq_refl) as (H1 & H2 & _).
  split; [rewrite H1 | rewrite H2]; reflexivity.
Defined.

(* ================================================================== *)
(** ** The default base distribution *)

Lemma reduce_max_ranks (self : SinhArcsinh) :
  tf.reduce_max
    (map distribution_util.prefer_static_rank
         [skewness self; tailweight self; loc self; scale self]) =
  fold_right Nat.max 0 (map (@List.length nat) (parameter_shapes self)).
Proof. reflexivity. Qed.

(** A defined broadcast has the largest rank of the family. *)
Lemma broadcast_shapes_rank (shapes : list tf.TensorShape)
      (s : tf.TensorShape) :
  broadcast_shapes shapes = Some s ->
  List.length s = fold_right Nat.max 0 (map (@List.length nat) shapes).
Proof.
  unfold broadcast_shapes. intros H.
  destruct (sequence _) as [ds |] eqn:E; [| discriminate].
  injection H as <-. rewrite length_rev.
  apply (sequence_seq_some _ 1 _ _ _ E).
Qed.

(** The claim that the default base distribution carries the broadcast
    shape of the parameters fails: with a [loc] of shape [[3]] the default
    normal has batch shape [[1]], not [[3]]. *)
Lemma C3_default_base_shape_counterexample :
  ~ (forall (a : Args) (self : SinhArcsinh),
       arg_distribution a = None ->
       __init__ a = inr self ->
       standard_normal (distribution self) /\
       distributions.batch_shape (distribution self) =
         shape_result (broadcast_shapes (parameter_shapes self))).
Proof.
  intros H.
  pose (a := default_args
               (PyTensor (tf.mkTensor tf.float32 [3] (fun _ => 0%R) false))
               (PyFloat 1)).
  destruct (__init__ a) as [e | self] eqn:E; [discriminate E |].
  destruct (H a self eq_refl E) as [_ Hshape].
  injection E as <-.
  discriminate Hshape.
Qed.

(* ================================================================== *)
(** ** The reshaping [F]: symmetry, anchoring and monotonicity *)

Lemma sinh_opp (x : R) : sinh (- x) = (- sinh x)%R.
Proof. unfold sinh. rewrite Ropp_involutive. field. Qed.

Lemma sinh_injective (x y : R) : sinh x = sinh y -> x = y.
Proof.
  intros H. rewrite <- (arcsinh_sinh x), <- (arcsinh_sinh y), H. reflexivity.
Qed.

Lemma arcsinh_opp (z : R) : arcsinh (- z) = (- arcsinh z)%R.
Proof.
  apply sinh_injective. rewrite sinh_opp, !sinh_arcsinh. reflexivity.
Qed.

Lemma sinh_positive (x : R) : (0 < x)%R -> (0 < sinh x)%R.
Proof. intros H. rewrite <- sinh_0. apply sinh_lt. exact H. Qed.

Lemma sinh_negative (x : R) : (x < 0)%R -> (sinh x < 0)%R.
Proof. intros H. rewrite <- sinh_0. apply sinh_lt. exact H. Qed.

Lemma arcsinh_2_positive : (0 < arcsinh 2)%R.
Proof. rewrite <- arcsinh_0. apply arcsinh_lt. lra. Qed.

(** [F_0(2)] is positive for a positive tailweight, and vanishes only for
    tailweight 0. *)
Lemma F_0_2_positive (tailweight : R) :
  (0 < tailweight)%R -> (0 < bijectors.F_0 tailweight 2)%R.
Proof.
  intros H. unfold bijectors.F_0. apply sinh_positive.
  apply Rmult_lt_0_compat; [exact arcsinh_2_positive | exact H].
Qed.

Lemma F_0_2_nonzero (tailweight : R) :
  tailweight <> 0%R -> bijectors.F_0 tailweight 2 <> 0%R.
Proof.
  intros H E. unfold bijectors.F_0 in E. rewrite <- sinh_0 in E.
  apply sinh_injective in E.
  pose proof arcsinh_2_positive.
  apply Rmult_integral in E as [E | E]; lra.
Qed.

(** Reflection: negating the skewness mirrors the reshaping. *)
Lemma F_reflection (skewness tailweight z : R) :
  bijectors.F (- skewness) tailweight (- z) =
  (- bijectors.F skewness tailweight z)%R.
Proof.
  unfold bijectors.F. rewrite arcsinh_opp.
  replace ((- arcsinh z + - skewness) * tailweight)%R
    with (- ((arcsinh z + skewness) * tailweight))%R by ring.
  rewrite sinh_opp. unfold Rdiv. ring.
Qed.

(** Without skew the reshaping keeps the point 2 in place. *)
Lemma F_anchor (tailweight : R) :
  tailweight <> 0%R -> bijectors.F 0 tailweight 2 = 2%R.
Proof.
  intros H. pose proof (F_0_2_nonzero tailweight H) as Hn.
  unfold bijectors.F. rewrite Rplus_0_r.
  change (sinh (arcsinh 2 * tailweight)) with (bijectors.F_0 tailweight 2).
  field. exact Hn.
Qed.

(** For a positive tailweight the reshaping is strictly increasing. *)
Lemma F_increasing (skewness tailweight z1 z2 : R) :
  (0 < tailweight)%R -> (z1 < z2)%R ->
  (bijectors.F skewness tailweight z1 < bijectors.F skewness tailweight z2)%R.
Proof.
  intros Ht Hz. unfold bijectors.F.
  apply Rmult_lt_compat_r.
  - apply Rdiv_lt_0_compat; [lra | apply F_0_2_positive; exact Ht].
  - apply sinh_lt. apply Rmult_lt_compat_r; [exact Ht |].
    apply Rplus_lt_compat_r. apply arcsinh_lt. exact Hz.
Qed.

(** The image of 0 has the sign of the skewness. *)
Lemma F_at_0 (skewness tailweight : R) :
  (0 < tailweight)%R ->
  ((0 < skewness)%R -> (0 < bijectors.F skewness tailweight 0)%R)
  /\ (skewness = 0%R -> bijectors.F skewness tailweight 0 = 0%R)
  /\ ((skewness < 0)%R -> (bijectors.F skewness tailweight 0 < 0)%R).
Proof.
  intros Ht.
  assert (Hc : (0 < 2 / bijectors.F_0 tailweight 2)%R)
    by (apply Rdiv_lt_0_compat; [lra | apply F_0_2_positive; exact Ht]).
  unfold bijectors.F. rewrite arcsinh_0, Rplus_0_l.
  repeat split.
  - intros Hk. apply Rmult_lt_0_compat; [| exact Hc].
    apply sinh_positive. apply Rmult_lt_0_compat; assumption.
  - intros ->. rewrite Rmult_0_l, sinh_0. ring.
  - intros Hk.
    assert (Hs : (sinh (skewness * tailweight) < 0)%R).
    { apply sinh_negative. nra. }
    nra.
Qed.

(* ================================================================== *)
(** ** The transform of a constructed distribution *)

Lemma init_forward (a : Args) (self : SinhArcsinh) :
  __init__ a = inr self ->
  forall i z,
    bijectors.forward (bijector self) i z =
    (tf.read (loc self) i +
     tf.read (scale self) i *
     bijectors.F (tf.read (skewness self) i) (tf.read (tailweight self) i) z)%R.
Proof.
  intros H i z. rewrite (init_bijector a self H).
  apply forward_make_bijector.
Qed.

(** X1: two distributions that differ only by the sign of their skewness are
    mirror images of each other about [loc]: the transform of the second at
    [-z] is the reflection about [loc] of the transform of the first
    at [z]. *)
Theorem negated_skewness_mirrors_the_transform
        (a a' : Args) (self self' : SinhArcsinh) :
  __init__ a = inr self ->
  __init__ a' = inr self' ->
  (forall i, tf.read (loc self') i = tf.read (loc self) i) ->
  (forall i, tf.read (scale self') i = tf.read (scale self) i) ->
  (forall i, tf.read (tailweight self') i = tf.read (tailweight self) i) ->
  (forall i, tf.read (skewness self') i = (- tf.read (skewness self) i)%R) ->
  forall i z,
    bijectors.forward (bijector self') i (- z) =
    (2 * tf.read (loc self) i - bijectors.forward (bijector self) i z)%R.
Proof.
  intros H H' Hl Hs Ht Hk i z.
  rewrite (init_forward a' self' H'), (init_forward a self H).
  rewrite Hl, Hs, Ht, Hk, F_reflection. ring.
Qed.

Lemma negated_skewness_mirrors_the_transform_witness :
  exists self self',
    __init__ (float_args 1 2 3 4 false true) = inr self
    /\ __init__ (float_args 1 2 (-3) 4 false true) = inr self'
    /\ forall i z,
         bijectors.forward (bijector self') i (- z) =
         (2 * tf.read (loc self) i - bijectors.forward (bijector self) i z)%R.
Proof.
  eexists. eexists. split; [reflexivity |]. split; [reflexivity |].
  apply (negated_skewness_mirrors_the_transform
           (float_args 1 2 3 4 false true)
           (float_args 1 2 (-3) 4 false true));
    try reflexivity; intros i; reflexivity.
Defined.

(** X2: without skew, the transform sends 2 to [loc + 2 * scale] whatever
    the (non-zero) tailweight: the factor [2 / F_0(2)] anchors the point two
    scales above [loc]. *)
Theorem unskewed_transform_is_anchored_at_two_scales
        (a : Args) (self : SinhArcsinh) (i : list nat) :
  __init__ a = inr self ->
  tf.read (skewness self) i = 0%R ->
  tf.read (tailweight self) i <> 0%R ->
  bijectors.forward (bijector self) i 2 =
  (tf.read (loc self) i + 2 * tf.read (scale self) i)%R.
Proof.
  intros H Hk Ht. rewrite (init_forward a self H), Hk, (F_anchor _ Ht).
  ring.
Qed.

Lemma unskewed_transform_is_anchored_at_two_scales_witness :
  exists self,
    __init__ (float_args 5 3 0 7 false true) = inr self
    /\ bijectors.forward (bijector self) [] 2 =
       (tf.read (loc self) [] + 2 * tf.read (scale self) [])%R.
Proof.
  eexists. split; [reflexivity |].
  apply (unskewed_transform_is_anchored_at_two_scales
           (float_args 5 3 0 7 false true)).
  - reflexivity.
  - reflexivity.
  - unfold tf.read. simpl. lra.
Defined.

(** X3: for a positive tailweight the transform is strictly increasing when
    [scale] is positive, strictly decreasing when [scale] is negative, and
    constant (equal to [loc]) when [scale] is zero; so it is one-to-one
    exactly when [scale] is not zero. *)
Theorem transform_monotone_in_the_sign_of_scale
        (a : Args) (self : SinhArcsinh) (i : list nat) :
  __init__ a = inr self ->
  (0 < tf.read (tailweight self) i)%R ->
  ((0 < tf.read (scale self) i)%R ->
     forall z1 z2, (z1 < z2)%R ->
       (bijectors.forward (bijector self) i z1 <
        bijectors.forward (bijector self) i z2)%R)
  /\ ((tf.read (scale self) i < 0)%R ->
     forall z1 z2, (z1 < z2)%R ->
       (bijectors.forward (bijector self) i z2 <
        bijectors.forward (bijector self) i z1)%R)
  /\ (tf.read (scale self) i = 0%R ->
     forall z, bijectors.forward (bijector self) i z = tf.read (loc self) i)
  /\ (tf.read (scale self) i <> 0%R ->
     forall z1 z2,
       bijectors.forward (bijector self) i z1 =
       bijectors.forward (bijector self) i z2 -> z1 = z2).
Proof.
  intros H Ht.
  assert (Hinc : forall z1 z2, (z1 < z2)%R ->
            (bijectors.F (tf.read (skewness self) i)
                         (tf.read (tailweight self) i) z1 <
             bijectors.F (tf.read (skewness self) i)
                         (tf.read (tailweight self) i) z2)%R)
    by (intros z1 z2; apply F_increasing; exact Ht).
  repeat split.
  - intros Hs z1 z2 Hz. rewrite !(init_forward a self H).
    specialize (Hinc z1 z2 Hz). nra.
  - intros Hs z1 z2 Hz. rewrite !(init_forward a self H).
    specialize (Hinc z1 z2 Hz). nra.
  - intros Hs z. rewrite (init_forward a self H), Hs. ring.
  - intros Hs z1 z2. rewrite !(init_forward a self H). intros E.
    destruct (Rtotal_order z1 z2) as [Hz | [Hz | Hz]].
    + specialize (Hinc z1 z2 Hz). nra.
    + exact Hz.
    + specialize (Hinc z2 z1 Hz). nra.
Qed.

Lemma transform_monotone_in_the_sign_of_scale_witness :
  exists self,
    __init__ (float_args 0 2 1 3 false true) = inr self
    /\ forall z1 z2, (z1 < z2)%R ->
         (bijectors.forward (bijector self) [] z1 <
          bijectors.forward (bijector self) [] z2)%R.
Proof.
  eexists. split; [reflexivity |].
  apply (transform_monotone_in_the_sign_of_scale
           (float_args 0 2 1 3 false true)).
  - reflexivity.
  - unfold tf.read. simpl. lra.
  - unfold tf.read. simpl. lra.
Defined.

(** X4: for positive [scale] and [tailweight], the transform moves the
    origin to the right of [loc] when the skewness is positive, to the left
    when it is negative, and onto [loc] when there is no skew. *)
Theorem skewness_sign_moves_the_image_of_zero
        (a : Args) (self : SinhArcsinh) (i : list nat) :
  __init__ a = inr self ->
  (0 < tf.read (scale self) i)%R ->
  (0 < tf.read (tailweight self) i)%R ->
  ((0 < tf.read (skewness self) i)%R ->
     (tf.read (loc self) i < bijectors.forward (bijector self) i 0)%R)
  /\ (tf.read (skewness self) i = 0%R ->
     bijectors.forward (bijector self) i 0 = tf.read (loc self) i)
  /\ ((tf.read (skewness self) i < 0)%R ->
     (bijectors.forward (bijector self) i 0 < tf.read (loc self) i)%R).
Proof.
  intros H Hs Ht. rewrite (init_forward a self H).
  destruct (F_at_0 (tf.read (skewness self) i) _ Ht) as (Hp & Hz & Hn).
  repeat split.
  - intros Hk. specialize (Hp Hk). nra.
  - intros Hk. rewrite (Hz Hk). ring.
  - intros Hk. specialize (Hn Hk). nra.
Qed.

Lemma skewness_sign_moves_the_image_of_zero_witness :
  exists self,
    __init__ (float_args 1 2 3 4 false true) = inr self
    /\ (tf.read (loc self) [] < bijectors.forward (bijector self) [] 0)%R.
Proof.
  eexists. split; [reflexivity |].
  apply (skewness_sign_moves_the_image_of_zero
           (float_args 1 2 3 4 false true));
    try reflexivity; unfold tf.read; simpl; lra.
Defined.

(* ================================================================== *)
(** ** More on the batch shape *)

(** Both shape methods, on any object. *)
Lemma batch_shape_spec (self : SinhArcsinh) :
  _batch_shape self = shape_result (broadcast_shapes (parameter_shapes self))
  /\ _batch_shape_tensor self = _batch_shape self.
Proof.
  assert (Hfold :
            fold_left broadcast_with
                      [tailweight self; loc self; scale self]
                      (ret (tf.shape (skewness self))) =
            shape_result (broadcast_shapes (parameter_shapes self))).
  { change (ret (tf.shape (skewness self)))
      with (shape_result (Some (tf.shape (skewness self)))).
    rewrite <- (broadcast_shapes_single (tf.shape (skewness self))).
    rewrite fold_broadcast_with. reflexivity. }
  split; [exact Hfold |].
  transitivity (fold_left broadcast_with
                          [tailweight self; loc self; scale self]
                          (ret (tf.shape (skewness self))));
    [| reflexivity].
  unfold _batch_shape_tensor, distribution_util.get_broadcast_shape.
  rewrite <- broadcast_rest_fold. reflexivity.
Qed.

(** The stored parameters depend on the four parameter arguments only. *)
Lemma init_same_parameters (a b : Args) (sa sb : SinhArcsinh) :
  arg_loc a = arg_loc b -> arg_scale a = arg_scale b ->
  arg_skewness a = arg_skewness b -> arg_tailweight a = arg_tailweight b ->
  __init__ a = inr sa -> __init__ b = inr sb ->
  _loc sa = _loc sb /\ _scale sa = _scale sb /\
  _tailweight sa = _tailweight sb /\ _skewness sa = _skewness sb.
Proof.
  intros El Es Ek Et Ha Hb.
  apply init_inv in Ha as (d & Hd & Hl & Hs & Ht & Hk & _ & _).
  apply init_inv in Hb as (d' & Hd' & Hl' & Hs' & Ht' & Hk' & _ & _).
  unfold parameter_args, tailweight_or_default, skewness_or_default in *.
  rewrite El, Es, Ek, Et in *.
  rewrite Hd in Hd'. injection Hd' as <-.
  rewrite Hl in Hl'. rewrite Hs in Hs'. rewrite Ht in Ht'. rewrite Hk in Hk'.
  injection Hl' as ->. injection Hs' as ->.
  injection Ht' as ->. injection Hk' as ->.
  repeat split.
Qed.

(** X5: the batch shape depends on the four parameters only: it ignores the
    base distribution (also a user-supplied one, whatever its own batch
    shape), [validate_args], [allow_nan_stats] and [name]. *)
Theorem batch_shape_ignores_the_base_distribution
        (a b : Args) (sa sb : SinhArcsinh) :
  arg_loc a = arg_loc b -> arg_scale a = arg_scale b ->
  arg_skewness a = arg_skewness b -> arg_tailweight a = arg_tailweight b ->
  __init__ a = inr sa -> __init__ b = inr sb ->
  _batch_shape sa = _batch_shape sb
  /\ _batch_shape_tensor sa = _batch_shape_tensor sb.
Proof.
  intros El Es Ek Et Ha Hb.
  destruct (init_same_parameters a b sa sb El Es Ek Et Ha Hb)
    as (Hl & Hs & Ht & Hk).
  unfold _batch_shape, _batch_shape_tensor, skewness, tailweight, loc, scale.
  rewrite Hl, Hs, Ht, Hk. split; reflexivity.
Qed.

Lemma batch_shape_ignores_the_base_distribution_witness :
  exists sa sb,
    __init__ (default_args (PyFloat 0) (PyFloat 1)) = inr sa
    /\ __init__ (mkArgs (PyFloat 0) (PyFloat 1) None None
                        (Some (distributions.Other "Laplace" [5]))
                        true false "other") = inr sb
    /\ _batch_shape sa = _batch_shape sb
    /\ _batch_shape sb = inr []
    /\ distributions.batch_shape (distribution sb) = inr [5].
Proof.
  eexists. eexists. split; [reflexivity |].
  split; [construct_with lra |].
  split; [| split; reflexivity].
  apply (batch_shape_ignores_the_base_distribution
           (default_args (PyFloat 0) (PyFloat 1))
           (mkArgs (PyFloat 0) (PyFloat 1) None None
                   (Some (distributions.Other "Laplace" [5]))
                   true false "other"));
    first [reflexivity | construct_with lra].
Defined.

(** The common size of a dimension, stated without reference to order. *)
Lemma common_dim_some (ds : list nat) (d : nat) :
  common_dim ds = Some d <->
  (d = 1 /\ forall x, In x ds -> x = 1)
  \/ (d <> 1 /\ In d ds /\ forall x, In x ds -> x = 1 \/ x = d).
Proof.
  unfold common_dim.
  set (p := fun d0 => negb (d0 =? 1)).
  assert (Hp : forall x, p x = true <-> x <> 1).
  { intros x. unfold p. destruct (Nat.eqb_spec x 1); simpl; split;
      congruence. }
  destruct (filter p ds) as [| e rest] eqn:E.
  - assert (Hall : forall x, In x ds -> x = 1).
    { intros x Hx. destruct (Nat.eq_dec x 1) as [| Hne]; [assumption |].
      assert (Hin : In x (filter p ds))
        by (apply filter_In; split; [assumption | apply Hp; assumption]).
      rewrite E in Hin. destruct Hin. }
    split.
    + intros H. injection H as <-. left. split; [reflexivity | exact Hall].
    + intros [[-> _] | (Hne & Hin & _)]; [reflexivity |].
      apply Hall in Hin. contradiction.
  - assert (He : In e ds /\ e <> 1).
    { assert (Hin : In e (filter p ds)) by (rewrite E; left; reflexivity).
      apply filter_In in Hin as [Hin Hpe]. split; [assumption |].
      apply Hp. assumption. }
    destruct He as [Hein Hene].
    assert (Hrest : forall x, In x rest -> In x ds /\ x <> 1).
    { intros x Hx.
      assert (Hin : In x (filter p ds)) by (rewrite E; right; assumption).
      apply filter_In in Hin as [Hin Hpx]. split; [assumption |].
      apply Hp. assumption. }
    destruct (forallb (Nat.eqb e) rest) eqn:Ef.
    + assert (Hall : forall x, In x ds -> x = 1 \/ x = e).
      { intros x Hx. destruct (Nat.eq_dec x 1) as [| Hne]; [left; assumption |].
        right.
        assert (Hin : In x (filter p ds))
          by (apply filter_In; split; [assumption | apply Hp; assumption]).
        rewrite E in Hin. destruct Hin as [<- | Hin]; [reflexivity |].
        rewrite forallb_forall in Ef. specialize (Ef x Hin).
        apply Nat.eqb_eq in Ef. congruence. }
      split.
      * intros H. injection H as <-. right. auto.
      * intros [[-> Hones] | (Hne & Hin & Hd)].
        -- apply Hones in Hein. contradiction.
        -- destruct (Hd e Hein) as [| ->]; [contradiction | reflexivity].
    + split; [discriminate |].
      intros [[-> Hones] | (Hne & Hin & Hd)].
      * apply Hones in Hein. contradiction.
      * exfalso.
        assert (Ef' : forallb (Nat.eqb e) rest = true).
        { apply forallb_forall. intros x Hx.
          destruct (Hrest x Hx) as [Hxin Hxne].
          destruct (Hd x Hxin) as [| ->]; [contradiction |].
          destruct (Hd e Hein) as [| ->]; [contradiction |].
          apply Nat.eqb_refl. }
        congruence.
Qed.

Lemma common_dim_permutation (ds ds' : list nat) :
  Permutation ds ds' -> common_dim ds = common_dim ds'.
Proof.
  assert (Hone : forall l l' d, Permutation l l' ->
                   common_dim l = Some d -> common_dim l' = Some d).
  { intros l l' d Hperm H. apply common_dim_some in H. apply common_dim_some.
    destruct H as [[-> Hall] | (Hne & Hin & Hall)].
    - left. split; [reflexivity |]. intros x Hx. apply Hall.
      apply (Permutation_in x (Permutation_sym Hperm) Hx).
    - right. split; [assumption |]. split.
      + apply (Permutation_in d Hperm Hin).
      + intros x Hx. apply Hall.
        apply (Permutation_in x (Permutation_sym Hperm) Hx). }
  intros Hperm.
  destruct (common_dim ds) as [d |] eqn:E.
  - symmetry. apply (Hone ds ds' d Hperm E).
  - destruct (common_dim ds') as [d' |] eqn:E'; [| reflexivity].
    rewrite (Hone ds' ds d' (Permutation_sym Hperm) E') in E. discriminate.
Qed.

Lemma max_rank_permutation (l l' : list (list nat)) :
  Permutation l l' ->
  fold_right Nat.max 0 (map (@List.length nat) l) =
  fold_right Nat.max 0 (map (@List.length nat) l').
Proof.
  induction 1; simpl; lia.
Qed.

Lemma broadcast_shapes_permutation (l l' : list tf.TensorShape) :
  Permutation l l' -> broadcast_shapes l = broadcast_shapes l'.
Proof.
  intros Hperm. unfold broadcast_shapes.
  rewrite (max_rank_permutation l l' Hperm).
  rewrite (sequence_seq_ext _
             (fun k => common_dim (map (fun s => dim_from_end s k) l))
             (fun k => common_dim (map (fun s => dim_from_end s k) l'))).
  - reflexivity.
  - intros k _. apply common_dim_permutation, Permutation_map. exact Hperm.
Qed.

(** X6: the batch shape does not depend on the order in which the shapes of
    the four parameters are combined: it is the broadcast of any
    rearrangement of them, and fails for all rearrangements or for none. *)
Theorem batch_shape_is_independent_of_parameter_order
        (self : SinhArcsinh) (shapes : list tf.TensorShape) :
  Permutation shapes (parameter_shapes self) ->
  _batch_shape self = shape_result (broadcast_shapes shapes)
  /\ _batch_shape_tensor self = shape_result (broadcast_shapes shapes).
Proof.
  intros Hperm. destruct (batch_shape_spec self) as [H1 H2].
  rewrite H2, H1, (broadcast_shapes_permutation _ _ Hperm).
  split; reflexivity.
Qed.

Lemma batch_shape_is_independent_of_parameter_order_witness :
  exists self,
    __init__ (mkArgs
                (PyTensor (tf.mkTensor tf.float32 [3; 1] (fun _ => 0%R) false))
                (PyTensor (tf.mkTensor tf.float32 [4] (fun _ => 1%R) false))
                None None None false true "SinhArcsinh") = inr self
    /\ _batch_shape self = shape_result (broadcast_shapes [[4]; [3; 1]; []; []]).
Proof.
  eexists. split; [reflexivity |].
  apply batch_shape_is_independent_of_parameter_order.
  unfold parameter_shapes. simpl.
  apply Permutation_sym.
  apply (perm_trans (l' := [[]; [3; 1]; []; [4]])).
  - apply perm_skip. apply perm_swap.
  - apply (perm_trans (l' := [[3; 1]; []; []; [4]])).
    + apply perm_swap.
    + apply (perm_trans (l' := [[3; 1]; []; [4]; []])).
      * do 2 apply perm_skip. apply perm_swap.
      * apply (perm_trans (l' := [[3; 1]; [4]; []; []])).
        -- apply perm_skip. apply perm_swap.
        -- apply perm_swap.
Defined.

Lemma broadcast_static_shape_nil_l (x : tf.TensorShape) :
  tf.broadcast_static_shape [] x = inr x.
Proof.
  unfold tf.broadcast_static_shape. cbn [rev tf.zip_longest].
  rewrite broadcast_dims_ones_l, rev_involutive. reflexivity.
Qed.

(** X7: scalar parameters do not take part in the batch shape: when
    [skewness] and [tailweight] are omitted, Python floats or tensors of
    rank 0, the batch shape is the broadcast of the shapes of [loc] and
    [scale] as the caller passed them. *)
Theorem batch_shape_with_scalar_skewness_and_tailweight
        (a : Args) (self : SinhArcsinh) :
  __init__ a = inr self ->
  scalar_or_omitted (arg_skewness a) ->
  scalar_or_omitted (arg_tailweight a) ->
  _batch_shape self =
    tf.broadcast_static_shape (py_shape (arg_loc a)) (py_shape (arg_scale a))
  /\ _batch_shape_tensor self =
    tf.broadcast_static_shape (py_shape (arg_loc a)) (py_shape (arg_scale a)).
Proof.
  intros H Hk Ht.
  pose proof (init_inv a self H) as (d & _ & Hl & Hs & Ht' & Hk' & _ & _).
  apply convert_shape in Hl, Hs, Ht', Hk'.
  assert (Ek : tf.shape (_skewness self) = []).
  { rewrite Hk'. unfold skewness_or_default, scalar_or_omitted in *.
    destruct (arg_skewness a); [exact Hk | reflexivity]. }
  assert (Et : tf.shape (_tailweight self) = []).
  { rewrite Ht'. unfold tailweight_or_default, scalar_or_omitted in *.
    destruct (arg_tailweight a); [exact Ht | reflexivity]. }
  destruct (batch_shape_spec self) as [_ H2]. rewrite H2.
  assert (E : _batch_shape self =
              tf.broadcast_static_shape (py_shape (arg_loc a))
                                        (py_shape (arg_scale a))).
  { unfold _batch_shape, skewness, tailweight, loc, scale.
    cbn [fold_left]. rewrite Ek, Et, Hl, Hs.
    cbn [bind ret]. rewrite (broadcast_static_shape_nil_l []).
    cbn [bind]. rewrite broadcast_static_shape_nil_l.
    reflexivity. }
  split; exact E.
Qed.

Lemma batch_shape_with_scalar_skewness_and_tailweight_witness :
  exists self,
    __init__ (mkArgs
                (PyTensor (tf.mkTensor tf.float32 [2; 1] (fun _ => 0%R) false))
                (PyTensor (tf.mkTensor tf.float32 [5] (fun _ => 1%R) false))
                None (Some (PyFloat 2)) None false true "SinhArcsinh")
      = inr self
    /\ _batch_shape self = inr [2; 5].
Proof.
  eexists. split; [reflexivity |].
  apply (batch_shape_with_scalar_skewness_and_tailweight
           (mkArgs
              (PyTensor (tf.mkTensor tf.float32 [2; 1] (fun _ => 0%R) false))
              (PyTensor (tf.mkTensor tf.float32 [5] (fun _ => 1%R) false))
              None (Some (PyFloat 2)) None false true "SinhArcsinh"));
    reflexivity.
Defined.

Lemma all_ones_repeat (s : list nat) :
  (forall d, In d s -> d = 1) <-> s = repeat 1 (List.length s).
Proof.
  induction s as [| x s IH]; simpl.
  - split; [reflexivity | intros _ d []].
  - split.
    + intros H. rewrite (H x (or_introl eq_refl)). f_equal.
      apply IH. intros d Hd. apply H. right. exact Hd.
    + intros E d [<- | Hd].
      * injection E as E _. exact E.
      * injection E as _ E. apply IH; assumption.
Qed.

(** X8: with the default base distribution, the base distribution has the
    batch shape of the constructed distribution exactly when every
    dimension of that batch shape is 1; otherwise only the overridden shape
    methods report the parameters' shape. *)
Theorem default_base_has_the_batch_shape_iff_all_ones
        (a : Args) (self : SinhArcsinh) (s : tf.TensorShape) :
  arg_distribution a = None ->
  __init__ a = inr self ->
  _batch_shape self = inr s ->
  (distributions.batch_shape (distribution self) = inr s
   <-> forall d, In d s -> d = 1).
Proof.
  intros Hnone H Hs.
  destruct (batch_shape_spec self) as [Hspec _]. rewrite Hspec in Hs.
  destruct (broadcast_shapes (parameter_shapes self)) as [s' |] eqn:E;
    [| discriminate].
  injection Hs as ->.
  pose proof (broadcast_shapes_rank _ _ E) as Hlen.
  pose proof (init_distribution a self H) as Hd. rewrite Hnone in Hd.
  unfold default_distribution in Hd. rewrite reduce_max_ranks in Hd.
  rewrite <- Hlen in Hd. unfold tf.ones_vector in Hd.
  rewrite Hd. cbn [distributions.batch_shape tf.zeros tf.ones tf.shape].
  rewrite broadcast_static_shape_nil_r.
  rewrite all_ones_repeat. split.
  - intros E'. injection E' as E'. symmetry. exact E'.
  - intros E'. f_equal. symmetry. exact E'.
Qed.

Lemma default_base_has_the_batch_shape_iff_all_ones_witness :
  exists self,
    __init__ (default_args
                (PyTensor (tf.mkTensor tf.float32 [1; 1] (fun _ => 0%R) false))
                (PyFloat 1)) = inr self
    /\ (distributions.batch_shape (distribution self) = inr [1; 1]
        <-> forall d, In d [1; 1] -> d = 1).
Proof.
  eexists. split; [reflexivity |].
  apply (default_base_has_the_batch_shape_iff_all_ones
           (default_args
              (PyTensor (tf.mkTensor tf.float32 [1; 1] (fun _ => 0%R) false))
              (PyFloat 1)));
    reflexivity.
Defined.

(* ================================================================== *)
(** ** More on the constructor *)

(** X9: the object records the call as it was made: [_parameters] holds the
    arguments before the defaults are filled in, so an omitted [skewness] or
    [tailweight] stays [None] there although the stored tensor reads 0,
    respectively 1. *)
Theorem parameters_record_the_call_as_made (a : Args) (self : SinhArcsinh) :
  __init__ a = inr self ->
  _parameters self = a
  /\ (arg_skewness a = None ->
      arg_skewness (_parameters self) = None /\
      forall i, tf.read (skewness self) i = 0%R)
  /\ (arg_tailweight a = None ->
      arg_tailweight (_parameters self) = None /\
      forall i, tf.read (tailweight self) i = 1%R).
Proof.
  intros H.
  pose proof (init_inv a self H) as (d & _ & _ & _ & Ht & Hk & _ & Hp).
  split; [exact Hp |]. rewrite Hp. split.
  - intros E. split; [exact E |].
    unfold skewness_or_default in Hk. rewrite E in Hk. simpl in Hk.
    destruct (tf.is_floating d); [| discriminate].
    injection Hk as Hk. unfold skewness. rewrite <- Hk. intros i. reflexivity.
  - intros E. split; [exact E |].
    unfold tailweight_or_default in Ht. rewrite E in Ht. simpl in Ht.
    destruct (tf.is_floating d); [| discriminate].
    injection Ht as Ht. unfold tailweight. rewrite <- Ht. intros i.
    reflexivity.
Qed.

Lemma parameters_record_the_call_as_made_witness :
  exists self,
    __init__ (default_args (PyFloat 2) (PyFloat 3)) = inr self
    /\ arg_skewness (_parameters self) = None
    /\ forall i, tf.read (skewness self) i = 0%R.
Proof.
  eexists. split; [reflexivity |].
  destruct (parameters_record_the_call_as_made
              (default_args (PyFloat 2) (PyFloat 3)) _ eq_refl)
    as (_ & Hk & _).
  exact (Hk eq_refl).
Defined.

Lemma dtype_eqb_refl (d : tf.DType) : tf.dtype_eqb d d = true.
Proof. destruct d; reflexivity. Qed.

(** When the loop of [common_dtype] succeeds, its result is the dtype it
    started with and the dtype of every argument that carries one. *)
Lemma common_dtype_loop_agrees (l : list (option PyValue)) :
  forall (acc r : option tf.DType),
    dtype_util.common_dtype_loop l acc = inr r ->
    (forall d, acc = Some d -> r = Some d)
    /\ (forall p d, In p l -> dtype_util.dtype_of p = Some d -> r = Some d).
Proof.
  induction l as [| q l IH]; intros acc r H; simpl in H.
  - injection H as <-. split; [auto | intros p d []].
  - destruct (dtype_util.dtype_of q) as [dt |] eqn:Eq.
    + destruct acc as [d0 |].
      * destruct (tf.dtype_eqb d0 dt) eqn:E; [| discriminate].
        apply dtype_eqb_eq in E. subst dt.
        destruct (IH _ _ H) as [Hacc Hin]. split.
        -- intros d Hd. apply Hacc. exact Hd.
        -- intros p d [<- | Hp] Hpd.
           ++ rewrite Eq in Hpd. apply Hacc. exact Hpd.
           ++ apply (Hin p d Hp Hpd).
      * destruct (IH _ _ H) as [Hacc Hin]. split.
        -- intros d Hd. discriminate.
        -- intros p d [<- | Hp] Hpd.
           ++ rewrite Eq in Hpd. apply Hacc. exact Hpd.
           ++ apply (Hin p d Hp Hpd).
    + destruct (IH _ _ H) as [Hacc Hin]. split; [exact Hacc |].
      intros p d [<- | Hp] Hpd.
      * rewrite Eq in Hpd. discriminate.
      * apply (Hin p d Hp Hpd).
Qed.

Lemma common_dtype_loop_error (l : list (option PyValue)) :
  forall (acc : option tf.DType) (e : Exn),
    dtype_util.common_dtype_loop l acc = inl e -> e = TypeError.
Proof.
  induction l as [| q l IH]; intros acc e H; simpl in H.
  - discriminate.
  - destruct (dtype_util.dtype_of q) as [dt |].
    + destruct acc as [d0 |].
      * destruct (tf.dtype_eqb d0 dt).
        -- apply (IH _ _ H).
        -- injection H as <-. reflexivity.
      * apply (IH _ _ H).
    + apply (IH _ _ H).
Qed.

(** X10: when two of the four parameters carry different dtypes, the
    constructor raises [TypeError]. *)
Theorem init_rejects_mismatched_dtypes
        (a : Args) (p q : option PyValue) (d1 d2 : tf.DType) :
  In p (parameter_args a) -> In q (parameter_args a) ->
  dtype_util.dtype_of p = Some d1 -> dtype_util.dtype_of q = Some d2 ->
  d1 <> d2 ->
  __init__ a = inl TypeError.
Proof.
  intros Hp Hq Hd1 Hd2 Hne.
  destruct (dtype_util.common_dtype_loop (parameter_args a) None)
    as [e | r] eqn:E.
  - apply common_dtype_loop_error in E as He. subst e.
    unfold __init__, dtype_util.common_dtype.
    unfold parameter_args in E. rewrite E. reflexivity.
  - destruct (common_dtype_loop_agrees _ _ _ E) as [_ Hin].
    pose proof (Hin p d1 Hp Hd1) as H1.
    pose proof (Hin q d2 Hq Hd2) as H2.
    congruence.
Qed.

Lemma init_rejects_mismatched_dtypes_witness :
  __init__ (default_args (PyTensor (tf.zeros [] tf.float32))
                         (PyTensor (tf.ones [] tf.float64)))
  = inl TypeError.
Proof.
  apply (init_rejects_mismatched_dtypes
           (default_args (PyTensor (tf.zeros [] tf.float32))
                         (PyTensor (tf.ones [] tf.float64)))
           (Some (PyTensor (tf.zeros [] tf.float32)))
           (Some (PyTensor (tf.ones [] tf.float64)))
           tf.float32 tf.float64).
  - left. reflexivity.
  - right. left. reflexivity.
  - reflexivity.
  - reflexivity.
  - discriminate.
Defined.

(** A parameter converts to the common dtype when that dtype is a
    floating-point one. *)
Lemma convert_to_common_dtype (a : Args) (d : tf.DType) (v : PyValue) :
  dtype_util.common_dtype (parameter_args a) tf.float32 = inr d ->
  tf.is_floating d = true ->
  In (Some v) (parameter_args a) \/ (exists x, v = PyFloat x) ->
  exists t, tensor_util.convert_nonref_to_tensor v d = inr t.
Proof.
  intros Hd Hfl Hv.
  destruct v as [x | t].
  - simpl. rewrite Hfl. eexists. reflexivity.
  - destruct Hv as [Hin | (x & Hx)]; [| discriminate].
    unfold dtype_util.common_dtype in Hd.
    apply bind_inr in Hd as (r & Hr & Hd).
    destruct (common_dtype_loop_agrees _ _ _ Hr) as [_ Hall].
    specialize (Hall _ (tf.dtype t) Hin eq_refl). subst r.
    injection Hd as <-.
    unfold tensor_util.convert_nonref_to_tensor.
    rewrite dtype_eqb_refl. destruct (tf.is_ref t); eexists; reflexivity.
Qed.

(** X11: the constructor does not check that the shapes of the parameters
    broadcast.  Whenever the parameters agree on a floating-point dtype (or
    carry none) and, if validation is on, the tailweight passes the check
    of the sinh-arcsinh bijector, the construction succeeds whatever the
    shapes of the parameters; shapes that do not broadcast show up only
    when the batch shape is asked for, as a [ValueError]. *)
Theorem init_does_not_check_shapes (a : Args) (d : tf.DType) :
  dtype_util.common_dtype (parameter_args a) tf.float32 = inr d ->
  tf.is_floating d = true ->
  (arg_validate_args a = true -> tailweight_passes_validation a) ->
  exists self,
    __init__ a = inr self
    /\ parameter_shapes self =
         map py_shape [skewness_or_default a; tailweight_or_default a;
                       arg_loc a; arg_scale a]
    /\ (_batch_shape self = inl ValueError <->
        broadcast_shapes
          (map py_shape [skewness_or_default a; tailweight_or_default a;
                         arg_loc a; arg_scale a]) = None).
Proof.
  intros Hd Hfl Hva.
  destruct (convert_to_common_dtype a d (arg_loc a) Hd Hfl) as (l & Hl).
  { left. left. reflexivity. }
  destruct (convert_to_common_dtype a d (arg_scale a) Hd Hfl) as (s & Hs).
  { left. right. left. reflexivity. }
  destruct (convert_to_common_dtype a d (tailweight_or_default a) Hd Hfl)
    as (t & Ht).
  { unfold tailweight_or_default, parameter_args.
    destruct (arg_tailweight a) as [v |].
    - left. simpl. auto.
    - right. eexists. reflexivity. }
  destruct (convert_to_common_dtype a d (skewness_or_default a) Hd Hfl)
    as (k & Hk).
  { unfold skewness_or_default, parameter_args.
    destruct (arg_skewness a) as [v |].
    - left. simpl. auto.
    - right. eexists. reflexivity. }
  assert (Hf : bijectors.new_SinhArcsinh k t (arg_validate_args a) =
               inr (bijectors.SinhArcsinh k t (arg_validate_args a))).
  { apply new_SinhArcsinh_accepts.
    - rewrite (convert_dtype _ _ _ Ht). exact Hfl.
    - intros E. specialize (Hva E). unfold tailweight_passes_validation in Hva.
      destruct (tailweight_or_default a) as [x | t0].
      + simpl in Ht. rewrite Hfl in Ht. injection Ht as <-.
        right. rewrite all_positive_constant. apply positive_true. exact Hva.
      + apply convert_ref in Ht. subst t. exact Hva. }
  assert (Hinit : exists self, __init__ a = inr self).
  { unfold __init__. unfold parameter_args in Hd. rewrite Hd.
    cbn [bind]. rewrite Hl. cbn [bind]. rewrite Hs. cbn [bind].
    unfold tailweight_or_default in Ht. unfold skewness_or_default in Hk.
    destruct (arg_tailweight a) as [tv |], (arg_skewness a) as [kv |];
      rewrite Ht; cbn [bind]; rewrite Hk; cbn [bind];
      rewrite Hf; cbn [bind];
      eexists; reflexivity. }
  destruct Hinit as (self & Hinit). exists self.
  split; [exact Hinit |].
  assert (Hshapes : parameter_shapes self =
                    map py_shape [skewness_or_default a;
                                  tailweight_or_default a;
                                  arg_loc a; arg_scale a]).
  { pose proof (init_inv a self Hinit)
      as (d' & _ & Hl' & Hs' & Ht' & Hk' & _ & _).
    unfold parameter_shapes, skewness, tailweight, loc, scale. cbn [map].
    rewrite (convert_shape _ _ _ Hl'), (convert_shape _ _ _ Hs'),
      (convert_shape _ _ _ Ht'), (convert_shape _ _ _ Hk').
    reflexivity. }
  split; [exact Hshapes |].
  destruct (batch_shape_spec self) as [Hspec _].
  rewrite Hspec, Hshapes. clear Hspec.
  destruct (broadcast_shapes
              (map py_shape [skewness_or_default a; tailweight_or_default a;
                             arg_loc a; arg_scale a]));
    cbn [shape_result]; split; intros E; try discriminate; reflexivity.
Qed.

Lemma init_does_not_check_shapes_witness :
  exists self,
    __init__ (default_args
                (PyTensor (tf.mkTensor tf.float32 [2] (fun _ => 0%R) false))
                (PyTensor (tf.mkTensor tf.float32 [3] (fun _ => 1%R) false)))
      = inr self
    /\ _batch_shape self = inl ValueError.
Proof.
  destruct (init_does_not_check_shapes
              (default_args
                 (PyTensor (tf.mkTensor tf.float32 [2] (fun _ => 0%R) false))
                 (PyTensor (tf.mkTensor tf.float32 [3] (fun _ => 1%R) false)))
              tf.float32 eq_refl eq_refl ltac:(discriminate))
    as (self & Hinit & _ & Hiff).
  exists self. split; [exact Hinit |].
  apply Hiff. reflexivity.
Defined.

(* ================================================================== *)
(** ** More on the parameter properties *)

(** X12: the parameter-properties metadata has an entry for exactly the four
    parameters of the constructor, whatever the dtype (also one without a
    machine epsilon, since the bijectors are built only on demand); any
    other key is missing, and [scale] and [tailweight] share one
    entry. *)
Theorem parameter_properties_keys (dtype : tf.DType) (key : string) :
  (dict_get (_parameter_properties dtype) key <> None <->
   In key ["loc"; "scale"; "skewness"; "tailweight"]%string)
  /\ dict_get (_parameter_properties dtype) "scale" =
     dict_get (_parameter_properties dtype) "tailweight".
Proof.
  split; [| reflexivity].
  unfold _parameter_properties. cbn [dict_get].
  destruct (String.eqb_spec key "loc") as [-> | Hl].
  { split; [intros _; simpl; auto | discriminate]. }
  destruct (String.eqb_spec key "scale") as [-> | Hs].
  { split; [intros _; simpl; auto | discriminate]. }
  destruct (String.eqb_spec key "skewness") as [-> | Hk].
  { split; [intros _; simpl; auto | discriminate]. }
  destruct (String.eqb_spec key "tailweight") as [-> | Ht].
  { split; [intros _; simpl; auto | discriminate]. }
  split.
  - intros H. contradiction H. reflexivity.
  - intros [E | [E | [E | [E | []]]]]; congruence.
Qed.

(** X13: the metadata and the constructor fit together: for a floating-point
    dtype, a [scale] and a [tailweight] produced by their default
    constraining bijectors from arbitrary reals give a distribution whose
    transform is strictly increasing, hence one-to-one. *)
Theorem constrained_parameters_give_an_increasing_transform
        (dtype : tf.DType) (fn : unit -> Result bijectors.Bijector)
        (b : bijectors.Bijector) (l k u v : R) (va nan : bool) :
  tf.is_floating dtype = true ->
  dict_get (_parameter_properties dtype) "scale" =
    Some (parameter_properties.mkParameterProperties (Some fn)) ->
  fn tt = inr b ->
  exists self,
    __init__ (float_args l (bijectors.forward b [] u) k
                         (bijectors.forward b [] v) va nan) = inr self
    /\ forall i z1 z2, (z1 < z2)%R ->
         (bijectors.forward (bijector self) i z1 <
          bijectors.forward (bijector self) i z2)%R.
Proof.
  intros Hfl Hget Hfn.
  cbn in Hget. injection Hget as <-. cbv beta in Hfn.
  destruct (dtype_util.eps dtype) as [e | low] eqn:Elow;
    [discriminate |].
  cbn [bind ret] in Hfn. injection Hfn as <-.
  pose proof (eps_positive dtype low Elow) as Hlow.
  destruct (init_float_args l (bijectors.forward
                                 (bijectors.Softplus low false) [] u)
                            k (bijectors.forward
                                 (bijectors.Softplus low false) [] v) va nan)
    as (self & Hinit & Hl & Hs & Hk & Ht & _).
  { intros _. pose proof (softplus_above_low low false [] v). lra. }
  exists self. split; [exact Hinit |].
  intros i z1 z2 Hz. rewrite !(init_forward _ self Hinit).
  rewrite Hl, Hs, Hk, Ht.
  change (tf.read (tf.constant ?x tf.float32) i) with x.
  pose proof (softplus_above_low low false [] u) as Hu.
  pose proof (softplus_above_low low false [] v) as Hv.
  assert (Hinc := F_increasing k
                    (bijectors.forward (bijectors.Softplus low false) [] v)
                    z1 z2 ltac:(lra) Hz).
  unfold tf.read. cbn [tf.value tf.constant].
  nra.
Qed.

Lemma constrained_parameters_give_an_increasing_transform_witness :
  exists fn b self,
    dict_get (_parameter_properties tf.float64) "scale" =
      Some (parameter_properties.mkParameterProperties (Some fn))
    /\ fn tt = inr b
    /\ __init__ (float_args 0 (bijectors.forward b [] (-5)) 1
                            (bijectors.forward b [] (-7)) true true)
       = inr self
    /\ forall i z1 z2, (z1 < z2)%R ->
         (bijectors.forward (bijector self) i z1 <
          bijectors.forward (bijector self) i z2)%R.
Proof.
  eexists. eexists.
  destruct (constrained_parameters_give_an_increasing_transform
              tf.float64 _ _ 0 1 (-5) (-7) true true
              eq_refl eq_refl eq_refl) as (self & Hinit & Hinc).
  exists self. split; [reflexivity |]. split; [reflexivity |].
  split; [exact Hinit | exact Hinc].
Defined.

(* ================================================================== *)
(** ** The constructor, step by step *)

Lemma positive_inv (x : R) : tf.positive x = true -> (0 < x)%R.
Proof.
  unfold tf.positive. destruct (Rlt_dec 0 x); [auto | discriminate].
Qed.

(** A conversion keeps the values of the argument. *)
Lemma convert_read (v : PyValue) (dtype : tf.DType) (r : tf.Tensor) :
  tensor_util.convert_nonref_to_tensor v dtype = inr r ->
  forall i, tf.read r i = py_read v i.
Proof.
  intros H i. destruct v as [x | t].
  - simpl in H. destruct (tf.is_floating dtype); [| discriminate].
    injection H as <-. reflexivity.
  - apply convert_ref in H. subst r. reflexivity.
Qed.

(** Once the parameters agree on a floating-point dtype, the conversions
    succeed and what is left of the constructor is the construction of the
    sinh-arcsinh bijector. *)
Lemma init_after_conversions (a : Args) (d : tf.DType) :
  dtype_util.common_dtype (parameter_args a) tf.float32 = inr d ->
  tf.is_floating d = true ->
  exists l s t k,
    tensor_util.convert_nonref_to_tensor (arg_loc a) d = inr l
    /\ tensor_util.convert_nonref_to_tensor (arg_scale a) d = inr s
    /\ tensor_util.convert_nonref_to_tensor (tailweight_or_default a) d
       = inr t
    /\ tensor_util.convert_nonref_to_tensor (skewness_or_default a) d
       = inr k
    /\ __init__ a =
       (f <- bijectors.new_SinhArcsinh k t (arg_validate_args a) ;;
        ret (mkSinhArcsinh
               l s t k
               (distributions.mkTransformedDistribution
                  (match arg_distribution a with
                   | None =>
                       default_distribution k t l s d (arg_allow_nan_stats a)
                                            (arg_validate_args a)
                   | Some b => b
                   end)
                  (bijectors.Chain [make_affine l s; f] false)
                  (arg_validate_args a)
                  (tf.name_scope (arg_name a)))
               a)).
Proof.
  intros Hd Hfl.
  destruct (convert_to_common_dtype a d (arg_loc a) Hd Hfl) as (l & Hl).
  { left. left. reflexivity. }
  destruct (convert_to_common_dtype a d (arg_scale a) Hd Hfl) as (s & Hs).
  { left. right. left. reflexivity. }
  destruct (convert_to_common_dtype a d (tailweight_or_default a) Hd Hfl)
    as (t & Ht).
  { unfold tailweight_or_default, parameter_args.
    destruct (arg_tailweight a) as [v |].
    - left. simpl. auto.
    - right. eexists. reflexivity. }
  destruct (convert_to_common_dtype a d (skewness_or_default a) Hd Hfl)
    as (k & Hk).
  { unfold skewness_or_default, parameter_args.
    destruct (arg_skewness a) as [v |].
    - left. simpl. auto.
    - right. eexists. reflexivity. }
  exists l, s, t, k. repeat (split; [assumption |]).
  unfold __init__. unfold parameter_args in Hd. rewrite Hd.
  cbn [bind]. rewrite Hl. cbn [bind]. rewrite Hs. cbn [bind].
  unfold tailweight_or_default in Ht. unfold skewness_or_default in Hk.
  destruct (arg_tailweight a) as [tv |], (arg_skewness a) as [kv |];
    rewrite Ht; cbn [bind]; rewrite Hk; cbn [bind]; reflexivity.
Qed.

(** The check of the sinh-arcsinh bijector, in terms of the tailweight
    argument. *)
Lemma tailweight_check (a : Args) (d : tf.DType) (t : tf.Tensor) :
  tf.is_floating d = true ->
  tensor_util.convert_nonref_to_tensor (tailweight_or_default a) d = inr t ->
  (tailweight_passes_validation a <->
   tf.is_ref t = true \/ tf.all_positive t = true).
Proof.
  intros Hfl Ht. unfold tailweight_passes_validation.
  destruct (tailweight_or_default a) as [x | t0].
  - simpl in Ht. rewrite Hfl in Ht. injection Ht as <-.
    rewrite all_positive_constant. split.
    + intros H. right. apply positive_true. exact H.
    + intros [H | H]; [discriminate | apply positive_inv; exact H].
  - apply convert_ref in Ht. subst t. reflexivity.
Qed.

(** The claim that validation detects a non-positive scale fails: with
    [validate_args=True], [scale = -1] is accepted. *)
Lemma C4_scale_is_not_checked_counterexample :
  ~ (forall (l s k t : R) (nan : bool),
       (s <= 0)%R ->
       exists e, __init__ (float_args l s k t true nan) = inl e).
Proof.
  intros H.
  destruct (H 0%R (-1)%R 0%R 1%R true ltac:(lra)) as (e & He).
  destruct (init_float_args 0 (-1) 0 1 true true ltac:(intros; lra))
    as (self & Hself & _).
  rewrite Hself in He. discriminate.
Qed.

(** C4 (amended): with parameters of a common floating-point dtype,
    - when [validate_args] is [False] the construction raises no error,
      whatever the values of the parameters;
    - when [validate_args] is [True] only [tailweight] is checked, by the
      sinh-arcsinh bijector, which alone among the bijectors receives
      [validate_args]: the construction succeeds exactly when the
      tailweight passes that check and raises [InvalidArgumentError]
      otherwise;
    - [scale] is never checked: [Shift] and [Scale] are built without
      [validate_args], and the stored [scale] is the conversion of the
      argument, whatever its sign. *)
Theorem C4_validation_checks_tailweight_only (a : Args) (d : tf.DType) :
  dtype_util.common_dtype (parameter_args a) tf.float32 = inr d ->
  tf.is_floating d = true ->
  (arg_validate_args a = false -> exists self, __init__ a = inr self)
  /\ (arg_validate_args a = true ->
      ((exists self, __init__ a = inr self) <->
       tailweight_passes_validation a)
      /\ (~ tailweight_passes_validation a ->
          __init__ a = inl InvalidArgumentError))
  /\ (forall self,
        __init__ a = inr self ->
        tensor_util.convert_nonref_to_tensor (arg_scale a) d
          = inr (scale self)
        /\ (forall i, tf.read (scale self) i = py_read (arg_scale a) i)
        /\ bijector self =
           bijectors.Chain
             [ bijectors.Chain [ bijectors.Shift (loc self) false;
                                 bijectors.Scale (scale self) false ] false;
               bijectors.SinhArcsinh (skewness self) (tailweight self)
                                     (arg_validate_args a) ] false).
Proof.
  intros Hd Hfl.
  destruct (init_after_conversions a d Hd Hfl)
    as (l & s & t & k & Hl & Hs & Ht & Hk & Hinit).
  pose proof (tailweight_check a d t Hfl Ht) as Hcheck.
  assert (Hdt : tf.is_floating (tf.dtype t) = true)
    by (rewrite (convert_dtype _ _ _ Ht); exact Hfl).
  split; [| split].
  - intros Hva. rewrite Hinit, Hva.
    rewrite new_SinhArcsinh_accepts; [| exact Hdt | discriminate].
    eexists. reflexivity.
  - intros Hva. split; [split |].
    + intros (self & Hself). apply Hcheck.
      destruct (init_inv a self Hself) as (d' & Hd' & _ & _ & Ht' & _).
      rewrite Hd in Hd'. injection Hd' as <-.
      rewrite Ht in Ht'. injection Ht' as Et.
      destruct (init_inv_bijector a self Hself) as (_ & Hpass).
      rewrite <- Et in Hpass. exact (Hpass Hva).
    + intros Hpass. rewrite Hinit.
      rewrite new_SinhArcsinh_accepts;
        [| exact Hdt | intros _; apply Hcheck; exact Hpass].
      eexists. reflexivity.
    + intros Hfail. rewrite Hinit, Hva.
      unfold bijectors.new_SinhArcsinh. rewrite Hdt. cbn [negb andb].
      destruct (tf.is_ref t) eqn:Er.
      * exfalso. apply Hfail, Hcheck. left. reflexivity.
      * destruct (tf.all_positive t) eqn:Ep.
        -- exfalso. apply Hfail, Hcheck. right. reflexivity.
        -- reflexivity.
  - intros self Hself.
    destruct (init_inv a self Hself) as (d' & Hd' & _ & Hs' & _ & _ & _ & _).
    rewrite Hd in Hd'. injection Hd' as <-.
    split; [exact Hs' |].
    split; [exact (convert_read _ _ _ Hs') |].
    rewrite (init_bijector a self Hself). reflexivity.
Qed.

Lemma C4_validation_checks_tailweight_only_witness :
  (exists self,
      __init__ (float_args 0 (-1) 0 1 true true) = inr self
      /\ forall i, tf.read (scale self) i = (-1)%R)
  /\ __init__ (float_args 0 1 0 (-1) true true) = inl InvalidArgumentError.
Proof.
  split.
  - destruct (C4_validation_checks_tailweight_only
                (float_args 0 (-1) 0 1 true true) tf.float32
                eq_refl eq_refl) as (_ & Htrue & Hscale).
    destruct (Htrue eq_refl) as ((_ & Hpass) & _).
    destruct Hpass as (self & Hself).
    { unfold tailweight_passes_validation. simpl. lra. }
    exists self. split; [exact Hself |].
    destruct (Hscale self Hself) as (_ & Hread & _). exact Hread.
  - destruct (C4_validation_checks_tailweight_only
                (float_args 0 1 0 (-1) true true) tf.float32
                eq_refl eq_refl) as (_ & Htrue & _).
    destruct (Htrue eq_refl) as (_ & Hfail).
    apply Hfail. unfold tailweight_passes_validation. simpl. lra.
Defined.

(* ================================================================== *)
(** ** No skew and unit tailweight: the plain affine transform *)

(** The stored parameters read as the arguments do. *)
Lemma init_reads (a : Args) (self : SinhArcsinh) :
  __init__ a = inr self ->
  forall i,
    tf.read (loc self) i = py_read (arg_loc a) i
    /\ tf.read (scale self) i = py_read (arg_scale a) i
    /\ tf.read (skewness self) i = py_read (skewness_or_default a) i
    /\ tf.read (tailweight self) i = py_read (tailweight_or_default a) i.
Proof.
  intros H i.
  destruct (init_inv a self H) as (d & _ & Hl & Hs & Ht & Hk & _ & _).
  unfold loc, scale, skewness, tailweight.
  repeat split; eapply convert_read; eassumption.
Qed.

Lemma init_parameter_shapes (a : Args) (self : SinhArcsinh) :
  __init__ a = inr self ->
  parameter_shapes self =
    map py_shape [skewness_or_default a; tailweight_or_default a;
                  arg_loc a; arg_scale a].
Proof.
  intros H.
  destruct (init_inv a self H) as (d & _ & Hl & Hs & Ht & Hk & _ & _).
  unfold parameter_shapes, skewness, tailweight, loc, scale. cbn [map].
  rewrite (convert_shape _ _ _ Hl), (convert_shape _ _ _ Hs),
    (convert_shape _ _ _ Ht), (convert_shape _ _ _ Hk).
  reflexivity.
Qed.

(** The claim that the constructed distribution equals the plain affine
    transform of every base distribution fails on the batch shape: over a
    base distribution of batch shape [[4]] and scalar parameters the object
    reports the batch shape [[]], the affine transform of the base reports
    [[4]]. *)
Lemma C1_batch_shape_counterexample :
  ~ (forall (a : Args) (self : SinhArcsinh)
            (b : distributions.Distribution),
       arg_distribution a = Some b ->
       __init__ a = inr self ->
       (forall i, py_read (skewness_or_default a) i = 0%R) ->
       (forall i, py_read (tailweight_or_default a) i = 1%R) ->
       same_distribution
         (of_sinh_arcsinh self)
         (of_transformed (affine_transform b (loc self) (scale self)))).
Proof.
  intros H.
  pose (a := mkArgs (PyFloat 3) (PyFloat 2) (Some (PyFloat 0))
                    (Some (PyFloat 1))
                    (Some (distributions.Other "Laplace" [4]))
                    false true "SinhArcsinh").
  destruct (__init__ a) as [e | self] eqn:E; [discriminate E |].
  destruct (H a self (distributions.Other "Laplace" [4]) eq_refl E)
    as (_ & _ & Hshape).
  - intros i. reflexivity.
  - intros i. reflexivity.
  - injection E as <-. discriminate Hshape.
Qed.

(** C1 (amended): for every base distribution and every [loc] and [scale],
    a [SinhArcsinh] constructed with [skewness = 0] and [tailweight = 1]
    has that base distribution and the transform of the plain affine
    transform, [z |-> loc + scale * z] with [loc] and [scale] the arguments
    of the call; it is that affine transform of the base distribution, batch
    shape included, exactly when the batch shape of the base distribution
    is the broadcast of the shapes of the four parameters.  (Values are real
    numbers.) *)
Theorem C1_no_skew_unit_tailweight_is_affine
        (a : Args) (self : SinhArcsinh) (b : distributions.Distribution) :
  arg_distribution a = Some b ->
  __init__ a = inr self ->
  (forall i, py_read (skewness_or_default a) i = 0%R) ->
  (forall i, py_read (tailweight_or_default a) i = 1%R) ->
  base (of_sinh_arcsinh self) = b
  /\ (forall i z,
        transform (of_sinh_arcsinh self) i z =
        (py_read (arg_loc a) i + py_read (arg_scale a) i * z)%R)
  /\ (forall i z,
        transform (of_sinh_arcsinh self) i z =
        transform (of_transformed
                     (affine_transform b (loc self) (scale self))) i z)
  /\ (forall i, tf.read (loc self) i = py_read (arg_loc a) i /\
                tf.read (scale self) i = py_read (arg_scale a) i)
  /\ (same_distribution
        (of_sinh_arcsinh self)
        (of_transformed (affine_transform b (loc self) (scale self)))
      <->
      distributions.batch_shape b =
      shape_result
        (broadcast_shapes
           (map py_shape [skewness_or_default a; tailweight_or_default a;
                          arg_loc a; arg_scale a]))).
Proof.
  intros Hbase Hinit Hskew Htail.
  pose proof (init_reads a self Hinit) as Hreads.
  assert (Hb : distribution self = b).
  { pose proof (init_distribution a self Hinit) as Hd.
    rewrite Hbase in Hd. exact Hd. }
  assert (Hfwd : forall i z,
             bijectors.forward (bijector self) i z =
             (tf.read (loc self) i + tf.read (scale self) i * z)%R).
  { intros i z. rewrite (init_forward a self Hinit).
    destruct (Hreads i) as (_ & _ & Hk & Ht).
    rewrite Hk, Ht, Hskew, Htail, F_identity. reflexivity. }
  assert (Hshape : _batch_shape self =
                   shape_result
                     (broadcast_shapes
                        (map py_shape [skewness_or_default a;
                                       tailweight_or_default a;
                                       arg_loc a; arg_scale a]))).
  { destruct (batch_shape_spec self) as [Hspec _].
    rewrite Hspec, (init_parameter_shapes a self Hinit). reflexivity. }
  split; [exact Hb |].
  split.
  { intros i z. cbn [transform of_sinh_arcsinh]. rewrite Hfwd.
    destruct (Hreads i) as (Hl & Hs & _). rewrite Hl, Hs. reflexivity. }
  split.
  { intros i z. cbn [transform of_sinh_arcsinh]. rewrite Hfwd.
    reflexivity. }
  split.
  { intros i. destruct (Hreads i) as (Hl & Hs & _). split; assumption. }
  unfold same_distribution.
  cbn [base transform reported_batch_shape of_sinh_arcsinh of_transformed
       affine_transform distributions.distribution distributions.bijector
       distributions.transformed_batch_shape].
  rewrite Hshape. split.
  - intros (_ & _ & E). symmetry. exact E.
  - intros E. split; [exact Hb |]. split.
    + intros i z. rewrite Hfwd. reflexivity.
    + symmetry. exact E.
Qed.

Lemma C1_no_skew_unit_tailweight_is_affine_witness :
  exists self,
    __init__ (mkArgs (PyFloat 3) (PyFloat 2) (Some (PyFloat 0))
                     (Some (PyFloat 1))
                     (Some (distributions.Other "Laplace" []))
                     false true "SinhArcsinh") = inr self
    /\ (forall i z,
          transform (of_sinh_arcsinh self) i z = (3 + 2 * z)%R)
    /\ same_distribution
         (of_sinh_arcsinh self)
         (of_transformed
            (affine_transform (distributions.Other "Laplace" [])
                              (loc self) (scale self))).
Proof.
  eexists. split; [reflexivity |].
  destruct (C1_no_skew_unit_tailweight_is_affine
              (mkArgs (PyFloat 3) (PyFloat 2) (Some (PyFloat 0))
                      (Some (PyFloat 1))
                      (Some (distributions.Other "Laplace" []))
                      false true "SinhArcsinh")
              _ (distributions.Other "Laplace" []) eq_refl eq_refl)
    as (_ & Hfwd & _ & _ & Hsame).
  - intros i. reflexivity.
  - intros i. reflexivity.
  - split; [exact Hfwd |]. apply Hsame. reflexivity.
Defined.

(* ================================================================== *)
(** ** The default base distribution, amended *)

(** C3 (amended): when [distribution] is omitted, the base distribution is
    a standard normal whose [loc] is a tensor of zeros of shape
    [[1, ..., 1]], with as many ones as the largest rank among the four
    parameters, and whose [scale] is the scalar one; it receives
    [allow_nan_stats] and [validate_args].  Its batch shape is that all-ones
    shape: it broadcasts against the combined shape of the parameters to
    that combined shape, and it is the combined shape exactly when every
    dimension of the combined shape is 1. *)
Theorem C3_default_base_is_unit_shaped_standard_normal
        (a : Args) (self : SinhArcsinh) :
  arg_distribution a = None ->
  __init__ a = inr self ->
  let batch_rank :=
    fold_right Nat.max 0 (map (@List.length nat) (parameter_shapes self)) in
  distribution self =
    distributions.Normal
      (tf.zeros (repeat 1 batch_rank) (tf.dtype (loc self)))
      (tf.ones [] (tf.dtype (loc self)))
      (arg_allow_nan_stats a) (arg_validate_args a)
  /\ standard_normal (distribution self)
  /\ distributions.batch_shape (distribution self) = inr (repeat 1 batch_rank)
  /\ forall s,
       broadcast_shapes (parameter_shapes self) = Some s ->
       List.length s = batch_rank
       /\ tf.broadcast_static_shape (repeat 1 batch_rank) s = inr s
       /\ (distributions.batch_shape (distribution self) = inr s <->
           forall dim, In dim s -> dim = 1).
Proof.
  intros Hnone H batch_rank.
  pose proof (init_distribution a self H) as Hd. rewrite Hnone in Hd.
  unfold default_distribution in Hd. rewrite reduce_max_ranks in Hd.
  fold batch_rank in Hd. unfold tf.ones_vector in Hd.
  split; [exact Hd |].
  rewrite Hd.
  assert (Hbase : distributions.batch_shape
                    (distributions.Normal
                       (tf.zeros (repeat 1 batch_rank) (tf.dtype (loc self)))
                       (tf.ones [] (tf.dtype (loc self)))
                       (arg_allow_nan_stats a) (arg_validate_args a))
                  = inr (repeat 1 batch_rank)).
  { cbn [distributions.batch_shape tf.zeros tf.ones tf.shape].
    apply broadcast_static_shape_nil_r. }
  split; [| split].
  - split; intros i; reflexivity.
  - exact Hbase.
  - intros s Hs. pose proof (broadcast_shapes_rank _ _ Hs) as Hlen.
    fold batch_rank in Hlen. split; [exact Hlen |].
    split.
    + rewrite <- Hlen. apply broadcast_static_shape_ones_l.
    + rewrite Hbase, all_ones_repeat, Hlen. split.
      * intros E. injection E as E. symmetry. exact E.
      * intros E. rewrite <- E. reflexivity.
Qed.

Lemma C3_default_base_is_unit_shaped_standard_normal_witness :
  exists self,
    __init__ (default_args
                (PyTensor (tf.mkTensor tf.float32 [3] (fun _ => 0%R) false))
                (PyFloat 1)) = inr self
    /\ distributions.batch_shape (distribution self) = inr [1]
    /\ _batch_shape self = inr [3].
Proof.
  eexists. split; [reflexivity |].
  split.
  - destruct (C3_default_base_is_unit_shaped_standard_normal
                (default_args
                   (PyTensor (tf.mkTensor tf.float32 [3] (fun _ => 0%R) false))
                   (PyFloat 1))
                _ eq_refl eq_refl) as (_ & _ & Hb & _).
    exact Hb.
  - reflexivity.
Defined.
